(** * rag-qa-system: document ingestion and retrieval core

    A shallow embedding of [app/config.py], [app/core/document_processor.py],
    [app/core/embeddings.py] and [app/core/vector_store.py].

    Python code that threads effects (logging, the file system, the Qdrant
    server, the process-wide caches, the entropy pool) is written in a state
    and exception monad over one [World].  The behaviour of the third-party
    libraries the code delegates to (langchain loaders, the OpenAI client, the
    langchain Qdrant wrapper) and the oracles of the operating system are
    gathered in the class [External]; every definition and theorem is
    parametric in it.

    Strings are sequences of ASCII characters; integers are [Z]; a [dict] is a
    [gmap]; a Python [float] is a primitive binary64 float. *)

From Stdlib Require Import ZArith String Ascii List Lia Floats.PrimFloat.
From stdpp Require Import base option list gmap strings pretty.

(** ** Python values, documents, exceptions *)

(** [qdrant_client.http.models.CollectionStatus] and [Distance]. *)
Inductive CollectionStatus := GREEN | YELLOW | GREY | RED.
Inductive Distance := COSINE | EUCLID | DOT | MANHATTAN.

(** The values this code stores in dictionaries ([dict[str, Any]]). *)
Inductive PyVal :=
| VNone
| VInt (z : Z)
| VStr (s : string)
| VStatus (s : CollectionStatus).

(** [langchain_core.documents.Document]. *)
Record Document := {
  page_content : string;
  metadata : gmap string PyVal
}.

Definition Vector := list float.

(** Exceptions.  [LibraryError] stands for whatever exception leaves a call
    into a third-party library whose code is not looked into; it is kept
    apart from the exceptions this repository raises itself. *)
Inductive Exn :=
| ValueError (msg : string)
| TypeError (msg : string)
| KeyError (key : string)
| NameError (name : string)
| FileExistsError (msg : string)
| UnexpectedResponse (status_code : Z) (reason_phrase : string) (content : string)
| ResponseHandlingException (source : string)
| LibraryError (text : string).

Definition newline : string := String (ascii_of_nat 10) EmptyString.

(** [str(e)]. *)
Definition exn_str (e : Exn) : string :=
  match e with
  | ValueError msg | TypeError msg | FileExistsError msg => msg
  | KeyError k => "'" +:+ k +:+ "'"
  | NameError n => "name '" +:+ n +:+ "' is not defined"
  | UnexpectedResponse code reason content =>
      let status_str :=
        if String.eqb reason "" then pretty code
        else pretty code +:+ " (" +:+ reason +:+ ")" in
      "Unexpected Response: " +:+ status_str +:+ newline
        +:+ "Raw response content:" +:+ newline +:+ content
  | ResponseHandlingException src => src
  | LibraryError text => text
  end.

(** Truthiness, and [x or default] for an optional argument:
    [None], [0] and [""] are falsy. *)
Definition truthy_int (z : Z) : bool := negb (z =? 0)%Z.
Definition truthy_str (s : string) : bool := negb (String.eqb s "").

Definition py_or {A} (truthy : A -> bool) (x : option A) (y : A) : A :=
  match x with
  | Some v => if truthy v then v else y
  | None => y
  end.

(** ** Strings and paths *)

(** [str.lower] on ASCII. *)
Definition lower_ascii (c : ascii) : ascii :=
  let n := nat_of_ascii c in
  if (65 <=? n)%nat && (n <=? 90)%nat then ascii_of_nat (n + 32) else c.

Fixpoint lower (s : string) : string :=
  match s with
  | EmptyString => EmptyString
  | String c s' => String (lower_ascii c) (lower s')
  end.

(** [s.split(sep)] for a one-character separator; [cur] holds the characters
    of the current field, last one first. *)
Fixpoint split_on (sep : ascii) (s : string) (cur : list ascii) : list string :=
  match s with
  | EmptyString => [string_of_list_ascii (rev cur)]
  | String c s' =>
      if Ascii.eqb c sep
      then string_of_list_ascii (rev cur) :: split_on sep s' []
      else split_on sep s' (c :: cur)
  end.

(** [s.rfind(c)], counting positions from [i]; [None] is Python's [-1]. *)
Fixpoint rfind (c : ascii) (s : string) (i : nat) : option nat :=
  match s with
  | EmptyString => None
  | String x s' =>
      match rfind c s' (S i) with
      | Some j => Some j
      | None => if Ascii.eqb x c then Some i else None
      end
  end.

Fixpoint join (sep : string) (l : list string) : string :=
  match l with
  | [] => ""
  | [x] => x
  | x :: l' => x +:+ sep +:+ join sep l'
  end.

Definition starts_with (p s : string) : bool := String.prefix p s.

(** [pathlib.PurePosixPath]: the anchor and the parts that remain once empty
    and ["."] components are dropped. *)
Module Path.

Record t := {
  anchor : string;
  parts : list string
}.

Definition of_str (s : string) : t :=
  {| anchor :=
       if starts_with "/" s then
         if starts_with "//" s && negb (starts_with "///" s) then "//" else "/"
       else "";
     parts :=
       filter (fun c => c <> "" /\ c <> ".") (split_on "/" s []) |}.

(** [Path.name]: the last component, [''] when there is none. *)
Definition name (p : t) : string := List.last (parts p) "".

(** [Path.suffix]:
    [i = name.rfind('.'); name[i:] if 0 < i < len(name) - 1 else '']. *)
Definition suffix (p : t) : string :=
  let n := name p in
  match rfind "." n 0 with
  | Some i =>
      if (0 <? i)%nat && (Z.of_nat i <? Z.of_nat (String.length n) - 1)%Z
      then String.substring i (String.length n - i) n
      else ""
  | None => ""
  end.

(** [str(path)]. *)
Definition str (p : t) : string :=
  match anchor p, parts p with
  | EmptyString, [] => "."
  | a, ps => a +:+ join "/" ps
  end.

End Path.

(** ** app/config.py *)

Module Config.

(** The fields of [Settings] this core reads. *)
Record Settings := {
  openai_api_key : string;
  qdrant_url : string;
  qdrant_api_key : string;
  qdrant_collection_name : string;
  chunk_size : Z;
  chunk_overlap : Z;
  retrieval_k : Z;
  embedding_model : string
}.

(** [Settings()] with nothing but the three required fields in the
    environment: every other field takes its declared default. *)
Definition defaults (key url qkey : string) : Settings :=
  {| openai_api_key := key;
     qdrant_url := url;
     qdrant_api_key := qkey;
     qdrant_collection_name := "rag_qa_collection";
     chunk_size := 1000;
     chunk_overlap := 200;
     retrieval_k := 4;
     embedding_model := "text-embedding-3-small" |}.

End Config.

(** ** The world the program runs in *)

Inductive Level := DEBUG | INFO | WARNING | ERROR.

(** A call on a [logging.Logger]: the level, the message and the arguments
    that are formatted into it when the record is emitted. *)
Record LogRecord := {
  levelname : Level;
  msg : string;
  args : list PyVal
}.

(** A binary stream ([typing.BinaryIO]) such as an uploaded file. *)
Record BinaryIO := {
  io_bytes : list Byte.byte;
  io_pos : nat;
  io_closed : bool
}.

(** A collection of the Qdrant server as [get_collection] reports it. *)
Record Collection := {
  vectors_size : Z;
  vectors_distance : Distance;
  points_count : Z;
  status : CollectionStatus
}.

(** What can go wrong with one request to the server, whatever its target:
    no answer at all, or an answer with an error status. *)
Inductive Fault :=
| Unreachable
| HttpError (status_code : Z) (reason_phrase : string) (content : string).

(** The server: its collections, and the faults that will hit the requests
    to come (one entry per request, [None] for a request that goes through;
    none are left once the list is used up). *)
Record Server := {
  faults : list (option Fault);
  collections : gmap string Collection
}.

(** Calls that leave the process or enter a third-party client. *)
Inductive Call :=
| Get_collection (collection_name : string)
| Create_collection (collection_name : string) (size : Z) (distance : Distance)
| Embed_query (text : string)
| Embed_documents (texts : list string)
| Store_init (collection_name : string)
| Store_add_documents (documents : list Document) (ids : list string)
| Store_similarity_search (query : string) (k : Z)
| Store_similarity_search_with_score (query : string) (k : Z).

Inductive Outcome := Done | Failed (e : Exn).

Record CallRec := {
  call : Call;
  outcome : Outcome
}.

Record World := {
  log_records : list LogRecord;          (* calls on the loggers, oldest first *)
  fs : gmap string (list Byte.byte);     (* regular files by path *)
  tmp_seq : nat;                         (* names drawn from tempfile's name sequence *)
  heap : gmap nat BinaryIO;              (* stream objects by reference *)
  qdrant : Server;
  calls : list CallRec;                  (* oldest first *)
  urandom_pos : nat;                     (* draws taken from the entropy pool *)
  embeddings_cached : bool;              (* lru_cache of get_embeddings *)
  qdrant_client_cached : bool            (* lru_cache of get_qdrant_client *)
}.

Definition set_log_records (f : list LogRecord -> list LogRecord) (w : World) : World :=
  {| log_records := f (log_records w); fs := fs w; tmp_seq := tmp_seq w;
     heap := heap w; qdrant := qdrant w; calls := calls w;
     urandom_pos := urandom_pos w; embeddings_cached := embeddings_cached w;
     qdrant_client_cached := qdrant_client_cached w |}.

Definition set_fs (f : gmap string (list Byte.byte) -> gmap string (list Byte.byte))
    (w : World) : World :=
  {| log_records := log_records w; fs := f (fs w); tmp_seq := tmp_seq w;
     heap := heap w; qdrant := qdrant w; calls := calls w;
     urandom_pos := urandom_pos w; embeddings_cached := embeddings_cached w;
     qdrant_client_cached := qdrant_client_cached w |}.

Definition set_tmp_seq (f : nat -> nat) (w : World) : World :=
  {| log_records := log_records w; fs := fs w; tmp_seq := f (tmp_seq w);
     heap := heap w; qdrant := qdrant w; calls := calls w;
     urandom_pos := urandom_pos w; embeddings_cached := embeddings_cached w;
     qdrant_client_cached := qdrant_client_cached w |}.

Definition set_heap (f : gmap nat BinaryIO -> gmap nat BinaryIO) (w : World) : World :=
  {| log_records := log_records w; fs := fs w; tmp_seq := tmp_seq w;
     heap := f (heap w); qdrant := qdrant w; calls := calls w;
     urandom_pos := urandom_pos w; embeddings_cached := embeddings_cached w;
     qdrant_client_cached := qdrant_client_cached w |}.

Definition set_qdrant (f : Server -> Server) (w : World) : World :=
  {| log_records := log_records w; fs := fs w; tmp_seq := tmp_seq w;
     heap := heap w; qdrant := f (qdrant w); calls := calls w;
     urandom_pos := urandom_pos w; embeddings_cached := embeddings_cached w;
     qdrant_client_cached := qdrant_client_cached w |}.

Definition set_calls (f : list CallRec -> list CallRec) (w : World) : World :=
  {| log_records := log_records w; fs := fs w; tmp_seq := tmp_seq w;
     heap := heap w; qdrant := qdrant w; calls := f (calls w);
     urandom_pos := urandom_pos w; embeddings_cached := embeddings_cached w;
     qdrant_client_cached := qdrant_client_cached w |}.

Definition set_urandom_pos (f : nat -> nat) (w : World) : World :=
  {| log_records := log_records w; fs := fs w; tmp_seq := tmp_seq w;
     heap := heap w; qdrant := qdrant w; calls := calls w;
     urandom_pos := f (urandom_pos w); embeddings_cached := embeddings_cached w;
     qdrant_client_cached := qdrant_client_cached w |}.

Definition set_embeddings_cached (b : bool) (w : World) : World :=
  {| log_records := log_records w; fs := fs w; tmp_seq := tmp_seq w;
     heap := heap w; qdrant := qdrant w; calls := calls w;
     urandom_pos := urandom_pos w; embeddings_cached := b;
     qdrant_client_cached := qdrant_client_cached w |}.

Definition set_qdrant_client_cached (b : bool) (w : World) : World :=
  {| log_records := log_records w; fs := fs w; tmp_seq := tmp_seq w;
     heap := heap w; qdrant := qdrant w; calls := calls w;
     urandom_pos := urandom_pos w; embeddings_cached := embeddings_cached w;
     qdrant_client_cached := b |}.

(** ** The state and exception monad *)

Inductive Res (A : Type) :=
| Return (a : A)
| Raise (e : Exn).
Arguments Return {A} a.
Arguments Raise {A} e.

Definition M (A : Type) : Type := World -> Res A * World.

Definition ret {A} (a : A) : M A := fun w => (Return a, w).

Definition raise {A} (e : Exn) : M A := fun w => (Raise e, w).

Definition bind {A B} (m : M A) (k : A -> M B) : M B :=
  fun w =>
    match m w with
    | (Return a, w') => k a w'
    | (Raise e, w') => (Raise e, w')
    end.

Declare Scope py_scope.
Delimit Scope py_scope with py.
Notation "x <- m ;; k" := (bind m (fun x => k))
  (at level 100, m at next level, right associativity) : py_scope.
Notation "m ;; k" := (bind m (fun _ => k))
  (at level 100, right associativity) : py_scope.
Open Scope py_scope.

Definition gets {A} (f : World -> A) : M A := fun w => (Return (f w), w).

Definition modify (f : World -> World) : M unit := fun w => (Return tt, f w).

(** [try: m  except <the exceptions h accepts>: h e]. *)
Definition try_except {A} (m : M A) (h : Exn -> option (M A)) : M A :=
  fun w =>
    match m w with
    | (Return a, w') => (Return a, w')
    | (Raise e, w') =>
        match h e with
        | Some k => k w'
        | None => (Raise e, w')
        end
    end.

(** [try: m  finally: fin]. *)
Definition try_finally {A} (m : M A) (fin : M unit) : M A :=
  fun w =>
    match m w with
    | (r, w') =>
        match fin w' with
        | (Return _, w'') => (r, w'')
        | (Raise e, w'') => (Raise e, w'')
        end
    end.

(** [[f(x) for x in l]], left to right. *)
Fixpoint for_each {A B} (f : A -> M B) (l : list A) : M (list B) :=
  match l with
  | [] => ret []
  | x :: l' => y <- f x ;; ys <- for_each f l' ;; ret (y :: ys)
  end.

(** Modelled from the spec: [app/utils/logger.py] ([get_logger]) is not among
    the sources.  The loggers it hands out are taken to be standard loggers: a
    call emits one signal of its level, here recorded in order with its
    message and arguments. *)
Definition logger_call (lvl : Level) (m : string) (a : list PyVal) : M unit :=
  modify (set_log_records (fun l => l ++ [{| levelname := lvl; msg := m; args := a |}])).

Definition logger_debug := logger_call DEBUG.
Definition logger_info := logger_call INFO.
Definition logger_warning := logger_call WARNING.
Definition logger_error := logger_call ERROR.

Definition record_call (c : Call) (o : Outcome) : World -> World :=
  set_calls (fun l => l ++ [{| call := c; outcome := o |}]).

(** A call into a third-party library: it is recorded, and a failure comes
    back as the library's exception. *)
Definition library_call {A} (c : Call) (r : string + A) : M A :=
  fun w =>
    match r with
    | inl text => (Raise (LibraryError text), record_call c (Failed (LibraryError text)) w)
    | inr a => (Return a, record_call c Done w)
    end.

(** ** Third-party behaviour and operating-system oracles *)

Class External := {
  (** [get_settings()]: the settings read once from the environment. *)
  settings : Config.Settings;
  (** [tempfile.gettempdir()] and the candidate names tempfile draws. *)
  gettempdir : string;
  tmp_candidate : nat -> string;
  (** successive results of [os.urandom(16)], read as big-endian integers. *)
  urandom16 : nat -> Z;
  (** [Loader(path).load()] for the three langchain loaders, on a file system. *)
  PyPDFLoader_load : gmap string (list Byte.byte) -> string -> string + list Document;
  TextLoader_load : gmap string (list Byte.byte) -> string -> string + list Document;
  CSVLoader_load : gmap string (list Byte.byte) -> string -> string + list Document;
  (** where the import system found [embeddings.py] and keeps its bytecode
      (the module's [__file__] and [__cached__]). *)
  embeddings_file : string;
  embeddings_cached_file : string;
  (** the two remote calls of [langchain_openai.OpenAIEmbeddings]. *)
  OpenAIEmbeddings_embed_query : string -> string + Vector;
  OpenAIEmbeddings_embed_documents : list string -> string + list Vector;
  (** [langchain_qdrant.QdrantVectorStore]: construction (which validates the
      collection), insertion and the two searches. *)
  QdrantVectorStore_init : Server -> string -> string + unit;
  QdrantVectorStore_add_documents :
    Server -> string -> list Document -> list string -> string + Server;
  QdrantVectorStore_similarity_search :
    Server -> string -> string -> Z -> string + list Document;
  QdrantVectorStore_similarity_search_with_score :
    Server -> string -> string -> Z -> string + list (Document * float)
}.

(** ** app/core/document_processor.py *)

Module Document_processor.
Section Document_processor.
Context `{External}.

(** What [RecursiveCharacterTextSplitter(...)] keeps of its arguments. *)
Record TextSplitter := {
  splitter_chunk_size : Z;
  splitter_chunk_overlap : Z;
  separators : list string
}.

(** The argument checks of [langchain_text_splitters.TextSplitter.__init__],
    which [RecursiveCharacterTextSplitter] runs before anything else. *)
Definition RecursiveCharacterTextSplitter
    (chunk_size chunk_overlap : Z) (seps : list string) : M TextSplitter :=
  if (chunk_size <=? 0)%Z then
    raise (ValueError ("chunk_size must be > 0, got " +:+ pretty chunk_size))
  else if (chunk_overlap <? 0)%Z then
    raise (ValueError ("chunk_overlap must be >= 0, got " +:+ pretty chunk_overlap))
  else if (chunk_overlap >? chunk_size)%Z then
    raise (ValueError ("Got a larger chunk overlap (" +:+ pretty chunk_overlap
                       +:+ ") than chunk size (" +:+ pretty chunk_size
                       +:+ "), should be smaller."))
  else
    ret {| splitter_chunk_size := chunk_size;
           splitter_chunk_overlap := chunk_overlap;
           separators := seps |}.

Record DocumentProcessor := {
  chunk_size : Z;
  chunk_overlap : Z;
  text_splitter : TextSplitter
}.

Definition SUPPORTED_EXTENSIONS : list string := [".pdf"; ".txt"; ".csv"].

Definition __init__ (chunk_size chunk_overlap : option Z) : M DocumentProcessor :=
  let chunk_size := py_or truthy_int chunk_size (Config.chunk_size settings) in
  let chunk_overlap := py_or truthy_int chunk_overlap (Config.chunk_overlap settings) in
  text_splitter <-
    RecursiveCharacterTextSplitter chunk_size chunk_overlap
      [newline +:+ newline; newline; ". "; " "; ""] ;;
  logger_info
    ("Initialized DocumentProcessor with chunk_size=" +:+ pretty chunk_size
     +:+ " and chunk_overlap=" +:+ pretty chunk_overlap) [] ;;
  ret {| chunk_size := chunk_size;
         chunk_overlap := chunk_overlap;
         text_splitter := text_splitter |}.

(** [loader.load()] on the current file system. *)
Definition loader_load
    (load : gmap string (list Byte.byte) -> string -> string + list Document)
    (file_path : string) : M (list Document) :=
  files <- gets fs ;;
  match load files file_path with
  | inl text => raise (LibraryError text)
  | inr documents => ret documents
  end.

Definition load_pdf (self : DocumentProcessor) (file_path : string) : M (list Document) :=
  let file_path := Path.of_str file_path in
  logger_info ("Loading PDF document from: " +:+ Path.name file_path) [] ;;
  documents <- loader_load PyPDFLoader_load (Path.str file_path) ;;
  logger_info ("Loaded " +:+ pretty (length documents) +:+ " pages from PDF: "
               +:+ Path.str file_path) [] ;;
  ret documents.

Definition load_txt (self : DocumentProcessor) (file_path : string) : M (list Document) :=
  let file_path := Path.of_str file_path in
  logger_info ("Loading TXT document from: " +:+ Path.name file_path) [] ;;
  documents <- loader_load TextLoader_load (Path.str file_path) ;;
  logger_info ("Loaded " +:+ pretty (length documents) +:+ " documents from TXT: "
               +:+ Path.str file_path) [] ;;
  ret documents.

Definition load_csv (self : DocumentProcessor) (file_path : string) : M (list Document) :=
  let file_path := Path.of_str file_path in
  logger_info ("Loading CSV document from: " +:+ Path.name file_path) [] ;;
  documents <- loader_load CSVLoader_load (Path.str file_path) ;;
  logger_info ("Loaded " +:+ pretty (length documents) +:+ " documents from CSV: "
               +:+ Path.str file_path) [] ;;
  ret documents.

(** The dictionary [loaders] of [load_file]. *)
Definition loaders (self : DocumentProcessor)
    : list (string * (string -> M (list Document))) :=
  [(".pdf", load_pdf self); (".txt", load_txt self); (".csv", load_csv self)].

Fixpoint getitem {V} (d : list (string * V)) (key : string) : M V :=
  match d with
  | [] => raise (KeyError key)
  | (k, v) :: d' => if String.eqb k key then ret v else getitem d' key
  end.

Definition load_file (self : DocumentProcessor) (file_path : string) : M (list Document) :=
  let file_path := Path.of_str file_path in
  let extension := lower (Path.suffix file_path) in
  if negb (bool_decide (extension ∈ SUPPORTED_EXTENSIONS)) then
    raise (ValueError ("Unsupported file extension: " +:+ extension))
  else
    loader <- getitem (loaders self) extension ;;
    loader (Path.str file_path).

(** [tempfile.TMP_MAX]. *)
Definition TMP_MAX : nat := N.to_nat 10000.

(** [tempfile._mkstemp_inner]: draw candidate names until one is free and
    create that file, giving up after [TMP_MAX] collisions. *)
Fixpoint _mkstemp_inner (attempts : nat) (dir pre suf : string) : M string :=
  match attempts with
  | O => raise (FileExistsError "No usable temporary file name found")
  | S attempts' =>
      seq <- gets tmp_seq ;;
      modify (set_tmp_seq S) ;;
      let file := dir +:+ "/" +:+ pre +:+ tmp_candidate seq +:+ suf in
      files <- gets fs ;;
      match files !! file with
      | Some _ => _mkstemp_inner attempts' dir pre suf
      | None => modify (set_fs (insert file [])) ;; ret file
      end
  end.

(** [tempfile.NamedTemporaryFile(delete=False, suffix=suffix)]; the result
    stands for the open file object and is its [name]. *)
Definition NamedTemporaryFile (suffix : string) : M string :=
  _mkstemp_inner TMP_MAX gettempdir "tmp" suffix.

(** [file.read()] on the stream object [file] refers to. *)
Definition read (file : nat) : M (list Byte.byte) :=
  objects <- gets heap ;;
  match objects !! file with
  | None => raise (TypeError "object is not a binary stream")
  | Some io =>
      if io_closed io then raise (ValueError "I/O operation on closed file.")
      else
        modify (set_heap (insert file
                  {| io_bytes := io_bytes io;
                     io_pos := length (io_bytes io);
                     io_closed := false |})) ;;
        ret (drop (io_pos io) (io_bytes io))
  end.

(** [temp_file.write(data)]. *)
Definition write (temp_file : string) (data : list Byte.byte) : M unit :=
  modify (set_fs (fun files => <[temp_file := default [] (files !! temp_file) ++ data]> files)).

(** [Path(p).unlink(missing_ok=True)]. *)
Definition unlink (p : Path.t) : M unit :=
  modify (set_fs (delete (Path.str p))).

(** [doc.metadata["source"] = filename]. *)
Definition set_source (filename : string) (doc : Document) : Document :=
  {| page_content := page_content doc;
     metadata := <["source" := VStr filename]> (metadata doc) |}.

Definition load_from_upload (self : DocumentProcessor) (file : nat) (filename : string)
    : M (list Document) :=
  let extension := lower (Path.suffix (Path.of_str filename)) in
  if negb (bool_decide (extension ∈ SUPPORTED_EXTENSIONS)) then
    raise (ValueError ("Unsupported file extension: " +:+ extension))
  else
    (* with NamedTemporaryFile(delete=False, ...) as temp_file: leaving the
       block closes the file and, delete being False, keeps it on disk *)
    temp_file_path <-
      (temp_file <- NamedTemporaryFile extension ;;
       data <- read file ;;
       write temp_file data ;;
       ret temp_file) ;;
    try_finally
      (documents <- load_file self temp_file_path ;;
       ret (map (set_source filename) documents))
      (unlink (Path.of_str temp_file_path)).

(** [self.text_splitter.split_documents(documents)]: the chunking done by
    [langchain_text_splitters], for a splitter and the documents it is given. *)
Class Splitting := {
  TextSplitter_split_documents : TextSplitter -> list Document -> string + list Document
}.

Context `{Splitting}.

Definition split_documents (self : DocumentProcessor) (documents : list Document)
    : M (list Document) :=
  logger_info ("Splitting " +:+ pretty (length documents) +:+ " documents into chunks") [] ;;
  chunks <-
    match TextSplitter_split_documents (text_splitter self) documents with
    | inl text => raise (LibraryError text)
    | inr chunks => ret chunks
    end ;;
  logger_info ("Split into " +:+ pretty (length chunks) +:+ " chunks") [] ;;
  ret chunks.

(** [process_file(file_path: str | Path)]: [str(file_path)] is the argument
    itself for a string and the text of the path for a [Path]. *)
Definition process_file (self : DocumentProcessor) (file_path : string + Path.t)
    : M (list Document) :=
  let file_path :=
    match file_path with
    | inl s => s
    | inr p => Path.str p
    end in
  document <- load_file self file_path ;;
  chunks <- split_documents self document ;;
  ret chunks.

Definition process_upload (self : DocumentProcessor) (file : nat) (filename : string)
    : M (list Document) :=
  document <- load_from_upload self file filename ;;
  chunks <- split_documents self document ;;
  ret chunks.

End Document_processor.
End Document_processor.

(** ** app/core/embeddings.py *)

Module Embeddings.
Section Embeddings.
Context `{External}.

(** What a global or builtin name of this module is bound to, as far as
    [len] can tell objects apart: a string, or an object of a type without
    a length. *)
Inductive Obj :=
| OStr (s : string)
| OOpaque (type_name : string).

(** The module namespace of [embeddings.py]: the names its imports,
    assignments, [def]s and [class]es bind, after the interpreter's own. *)
Definition module_globals : list (string * Obj) :=
  [("__name__", OStr "app.core.embeddings");
   ("__doc__", OStr " Embedding utilities and classes. ");
   ("__package__", OStr "app.core");
   ("__loader__", OOpaque "SourceFileLoader");
   ("__spec__", OOpaque "ModuleSpec");
   ("__file__", OStr embeddings_file);
   ("__cached__", OStr embeddings_cached_file);
   ("__builtins__", OOpaque "dict");
   ("lru_cache", OOpaque "function");
   ("OpenAIEmbeddings", OOpaque "type");
   ("get_settings", OOpaque "function");
   ("get_logger", OOpaque "function");
   ("logger", OOpaque "Logger");
   ("get_embeddings", OOpaque "function");
   ("EmbeddingService", OOpaque "type")].

(** The names of the [builtins] module (CPython 3.12). *)
Definition builtin_names : list string :=
  ["abs"; "aiter"; "all"; "anext"; "any"; "ascii"; "bin"; "bool"; "breakpoint";
   "bytearray"; "bytes"; "callable"; "chr"; "classmethod"; "compile"; "complex";
   "copyright"; "credits"; "delattr"; "dict"; "dir"; "divmod"; "enumerate";
   "eval"; "exec"; "exit"; "filter"; "float"; "format"; "frozenset"; "getattr";
   "globals"; "hasattr"; "hash"; "help"; "hex"; "id"; "input"; "int";
   "isinstance"; "issubclass"; "iter"; "len"; "license"; "list"; "locals";
   "map"; "max"; "memoryview"; "min"; "next"; "object"; "oct"; "open"; "ord";
   "pow"; "print"; "property"; "quit"; "range"; "repr"; "reversed"; "round";
   "set"; "setattr"; "slice"; "sorted"; "staticmethod"; "str"; "sum"; "super";
   "tuple"; "type"; "vars"; "zip"; "__import__"; "__build_class__";
   "__debug__"; "__doc__"; "__loader__"; "__name__"; "__package__"; "__spec__";
   "None"; "True"; "False"; "Ellipsis"; "NotImplemented";
   "BaseException"; "BaseExceptionGroup"; "Exception"; "ExceptionGroup";
   "GeneratorExit"; "KeyboardInterrupt"; "SystemExit"; "StopIteration";
   "StopAsyncIteration"; "ArithmeticError"; "AssertionError"; "AttributeError";
   "BlockingIOError"; "BrokenPipeError"; "BufferError"; "ChildProcessError";
   "ConnectionAbortedError"; "ConnectionError"; "ConnectionRefusedError";
   "ConnectionResetError"; "EOFError"; "EnvironmentError"; "FileExistsError";
   "FileNotFoundError"; "FloatingPointError"; "IOError"; "ImportError";
   "IndentationError"; "IndexError"; "InterruptedError"; "IsADirectoryError";
   "KeyError"; "LookupError"; "MemoryError"; "ModuleNotFoundError"; "NameError";
   "NotADirectoryError"; "NotImplementedError"; "OSError"; "OverflowError";
   "PermissionError"; "ProcessLookupError"; "RecursionError"; "ReferenceError";
   "RuntimeError"; "SyntaxError"; "SystemError"; "TabError"; "TimeoutError";
   "TypeError"; "UnboundLocalError"; "UnicodeDecodeError"; "UnicodeEncodeError";
   "UnicodeError"; "UnicodeTranslateError"; "ValueError"; "ZeroDivisionError";
   "Warning"; "BytesWarning"; "DeprecationWarning"; "EncodingWarning";
   "FutureWarning"; "ImportWarning"; "PendingDeprecationWarning";
   "ResourceWarning"; "RuntimeWarning"; "SyntaxWarning"; "UnicodeWarning";
   "UserWarning"].

Fixpoint assoc (d : list (string * Obj)) (key : string) : option Obj :=
  match d with
  | [] => None
  | (k, v) :: d' => if String.eqb k key then Some v else assoc d' key
  end.

(** Reading a name a function body does not bind itself: the module
    namespace, then the builtins, else [NameError]. *)
Definition load_global (name : string) : M Obj :=
  match assoc module_globals name with
  | Some o => ret o
  | None =>
      if bool_decide (name ∈ builtin_names) then ret (OOpaque "builtin")
      else raise (NameError name)
  end.

(** [len(o)] for such an object. *)
Definition len (o : Obj) : M Z :=
  match o with
  | OStr s => ret (Z.of_nat (String.length s))
  | OOpaque type_name =>
      raise (TypeError ("object of type '" +:+ type_name +:+ "' has no len()"))
  end.

(** The client [OpenAIEmbeddings(model=..., openai_api_key=...)]. *)
Record OpenAIEmbeddings := {
  model : string;
  openai_api_key : string
}.

(** [@lru_cache()]: the body runs on the first call only. *)
Definition get_embeddings : M OpenAIEmbeddings :=
  let embeddings :=
    {| model := Config.embedding_model settings;
       openai_api_key := Config.openai_api_key settings |} in
  cached <- gets embeddings_cached ;;
  if (cached : bool) then ret embeddings
  else
    logger_info "Initializing OpenAI Embeddings with model: %s"
      [VStr (Config.embedding_model settings)] ;;
    logger_info "OpenAI Embeddings initialized successfully." [] ;;
    modify (set_embeddings_cached true) ;;
    ret embeddings.

Record EmbeddingService := {
  embeddings : OpenAIEmbeddings;
  model_name : string
}.

Definition __init__ : M EmbeddingService :=
  logger_info "Initializing EmbeddingService" [] ;;
  embeddings <- get_embeddings ;;
  ret {| embeddings := embeddings;
         model_name := Config.embedding_model settings |}.

(** The remote calls [self.embeddings.embed_query] and
    [self.embeddings.embed_documents]. *)
Definition client_embed_query (client : OpenAIEmbeddings) (text : string) : M Vector :=
  library_call (Embed_query text) (OpenAIEmbeddings_embed_query text).

Definition client_embed_documents (client : OpenAIEmbeddings) (texts : list string)
    : M (list Vector) :=
  library_call (Embed_documents texts) (OpenAIEmbeddings_embed_documents texts).

Definition embed_query (self : EmbeddingService) (text : string) : M Vector :=
  logger_debug "Generating embeddings for text of length %d"
    [VInt (Z.of_nat (String.length text))] ;;
  embedding_query <- client_embed_query (embeddings self) text ;;
  (* logger.debug("...", len(embedding)): the arguments are evaluated first *)
  embedding <- load_global "embedding" ;;
  n <- len embedding ;;
  logger_debug "Generated embedding of length %d" [VInt n] ;;
  ret embedding_query.

Definition embed_documents (self : EmbeddingService) (texts : list string)
    : M (list Vector) :=
  logger_debug "Generating embeddings for %d documents"
    [VInt (Z.of_nat (length texts))] ;;
  embeddings_document <- client_embed_documents (embeddings self) texts ;;
  (* logger.debug("...", len(embeddings)) *)
  embeddings <- load_global "embeddings" ;;
  n <- len embeddings ;;
  logger_debug "Generated embeddings for %d documents" [VInt n] ;;
  ret embeddings_document.

End Embeddings.
End Embeddings.

(** ** app/core/vector_store.py *)

Module Vector_store.
Section Vector_store.
Context `{External}.

(** *** The Qdrant client *)

Definition fault_exn (f : Fault) : Exn :=
  match f with
  | Unreachable => ResponseHandlingException "[Errno 111] Connection refused"
  | HttpError code reason content => UnexpectedResponse code reason content
  end.

(** One request to the server: the fault in line for it, if any, decides;
    otherwise [op] answers on the server's state.  The call is recorded
    with its outcome. *)
Definition request {A} (c : Call) (op : Server -> Exn + A * Server) : M A :=
  fun w =>
    let srv := qdrant w in
    let srv' := {| faults := tail (faults srv); collections := collections srv |} in
    match head (faults srv) with
    | Some (Some f) =>
        (Raise (fault_exn f),
         record_call c (Failed (fault_exn f)) (set_qdrant (fun _ => srv') w))
    | _ =>
        match op srv' with
        | inl e => (Raise e, record_call c (Failed e) (set_qdrant (fun _ => srv') w))
        | inr (a, srv'') => (Return a, record_call c Done (set_qdrant (fun _ => srv'') w))
        end
    end.

(** [client.get_collection(name)]: the server answers 404 for a collection
    it does not have. *)
Definition client_get_collection (collection_name : string) : M Collection :=
  request (Get_collection collection_name)
    (fun srv =>
       match collections srv !! collection_name with
       | Some info => inr (info, srv)
       | None =>
           inl (UnexpectedResponse 404 "Not Found"
                  ("Not found: Collection `" +:+ collection_name +:+ "` doesn't exist!"))
       end).

(** [client.create_collection(name, vectors_config=VectorParams(size, distance))]:
    the server refuses a name it already has. *)
Definition client_create_collection
    (collection_name : string) (size : Z) (distance : Distance) : M bool :=
  request (Create_collection collection_name size distance)
    (fun srv =>
       match collections srv !! collection_name with
       | Some _ =>
           inl (UnexpectedResponse 409 "Conflict"
                  ("Wrong input: Collection `" +:+ collection_name +:+ "` already exists!"))
       | None =>
           inr (true,
                {| faults := faults srv;
                   collections :=
                     <[collection_name :=
                         {| vectors_size := size;
                            vectors_distance := distance;
                            points_count := 0;
                            status := GREEN |}]> (collections srv) |})
       end).

(** The client [QdrantClient(url=..., api_key=...)]. *)
Record QdrantClient := {
  url : string;
  api_key : string
}.

(** [@lru_cache()]: the body runs on the first call only. *)
Definition get_qdrant_client : M QdrantClient :=
  let client :=
    {| url := Config.qdrant_url settings;
       api_key := Config.qdrant_api_key settings |} in
  cached <- gets qdrant_client_cached ;;
  if (cached : bool) then ret client
  else
    logger_info "Initializing Qdrant client" [] ;;
    logger_info "Qdrant client initialized successfully." [] ;;
    modify (set_qdrant_client_cached true) ;;
    ret client.

(** *** uuid4 and its text *)

(** [UUID(bytes=os.urandom(16), version=4)]: the variant and version bits
    are stamped on the 128 random bits. *)
Definition UUID_v4 (int : Z) : Z :=
  let int := Z.land int (Z.lnot (Z.shiftl 0xc000 48)) in
  let int := Z.lor int (Z.shiftl 0x8000 48) in
  let int := Z.land int (Z.lnot (Z.shiftl 0xf000 64)) in
  Z.lor int (Z.shiftl 4 76).

(** The UUID made from the [n]-th draw of the entropy pool. *)
Definition uuid_of_draw (n : nat) : Z :=
  UUID_v4 (urandom16 n mod 2 ^ 128).

Definition uuid4 : M Z :=
  n <- gets urandom_pos ;;
  modify (set_urandom_pos S) ;;
  ret (uuid_of_draw n).

Definition hex_digit (d : Z) : ascii :=
  nth (Z.to_nat d) (list_ascii_of_string "0123456789abcdef") "0"%char.

(** ['%0wx' % n]: the lowest [w] hexadecimal digits, most significant first. *)
Fixpoint hex_fixed (w : nat) (n : Z) : list ascii :=
  match w with
  | O => []
  | S w' => hex_fixed w' (n / 16) ++ [hex_digit (n mod 16)]
  end.

(** [str(uuid)]: [x = '%032x' % int], cut as 8-4-4-4-12. *)
Definition UUID_str (int : Z) : string :=
  let x := hex_fixed 32 int in
  string_of_list_ascii
    (take 8 x ++ "-"%char :: take 4 (drop 8 x) ++ "-"%char :: take 4 (drop 12 x)
     ++ "-"%char :: take 4 (drop 16 x) ++ "-"%char :: drop 20 x).

(** *** VectorStoreService *)

Record VectorStoreService := {
  collection_name : string;
  client : QdrantClient;
  embeddings : Embeddings.OpenAIEmbeddings
}.

Definition _ensure_collection (self : VectorStoreService) : M unit :=
  try_except
    (collection_info <- client_get_collection (collection_name self) ;;
     logger_info "Collection '%s' already exists." [VStr (collection_name self)])
    (fun e =>
       match e with
       | UnexpectedResponse _ _ _ => Some (
           logger_info "Collection '%s' does not exist. Creating..."
             [VStr (collection_name self)] ;;
           client_create_collection (collection_name self) 1536 COSINE ;;
           logger_info "Collection '%s' created successfully."
             [VStr (collection_name self)])
       | _ => None
       end).

(** [QdrantVectorStore(client=..., collection_name=..., embedding=...)]. *)
Definition QdrantVectorStore (self : VectorStoreService) : M unit :=
  srv <- gets qdrant ;;
  library_call (Store_init (collection_name self))
    (QdrantVectorStore_init srv (collection_name self)).

Definition __init__ (collection_name : option string) : M VectorStoreService :=
  logger_info "Initializing VectorStoreService" [] ;;
  let collection_name :=
    py_or truthy_str collection_name (Config.qdrant_collection_name settings) in
  client <- get_qdrant_client ;;
  embeddings <- Embeddings.get_embeddings ;;
  let self :=
    {| collection_name := collection_name;
       client := client;
       embeddings := embeddings |} in
  _ensure_collection self ;;
  QdrantVectorStore self ;;
  logger_info "VectorStoreService initialized successfully." [] ;;
  ret self.

(** [self.vector_store.add_documents(documents, ids=ids)]: embeds the texts
    and upserts the points. *)
Definition vector_store_add_documents
    (self : VectorStoreService) (documents : list Document) (ids : list string)
    : M unit :=
  srv <- gets qdrant ;;
  srv' <- library_call (Store_add_documents documents ids)
            (QdrantVectorStore_add_documents srv (collection_name self) documents ids) ;;
  modify (set_qdrant (fun _ => srv')).

Definition add_documents (self : VectorStoreService) (documents : list Document)
    : M (list string) :=
  if bool_decide (length documents = 0%nat) then
    logger_warning "No documents to add to the vector store." [] ;;
    ret []
  else
    logger_info "Adding %d documents to the vector store."
      [VInt (Z.of_nat (length documents))] ;;
    ids <- for_each (fun _ => u <- uuid4 ;; ret (UUID_str u)) documents ;;
    vector_store_add_documents self documents ids ;;
    logger_info "Added %d documents to the vector store."
      [VInt (Z.of_nat (length documents))] ;;
    ret ids.

Definition search (self : VectorStoreService) (query : string) (k : option Z)
    : M (list Document) :=
  logger_info "Searching the vector store for similar documents." [] ;;
  let k := py_or truthy_int k (Config.retrieval_k settings) in
  logger_debug "Using k=%d for search." [VInt k] ;;
  srv <- gets qdrant ;;
  results <- library_call (Store_similarity_search query k)
               (QdrantVectorStore_similarity_search srv (collection_name self) query k) ;;
  logger_info "Found %d similar documents." [VInt (Z.of_nat (length results))] ;;
  ret results.

Definition search_with_scores (self : VectorStoreService) (query : string) (k : option Z)
    : M (list (Document * float)) :=
  logger_info "Searching the vector store for similar documents with scores." [] ;;
  let k := py_or truthy_int k (Config.retrieval_k settings) in
  logger_debug "Using k=%d for search." [VInt k] ;;
  srv <- gets qdrant ;;
  results <- library_call (Store_similarity_search_with_score query k)
               (QdrantVectorStore_similarity_search_with_score
                  srv (collection_name self) query k) ;;
  logger_info "Found %d similar documents with scores."
    [VInt (Z.of_nat (length results))] ;;
  ret results.

(** [vector_store.as_retriever(search_type=..., search_kwargs=...)]. *)
Record VectorStoreRetriever := {
  search_type : string;
  search_kwargs : gmap string PyVal
}.

Definition get_retriever (self : VectorStoreService) (k : option Z)
    : M VectorStoreRetriever :=
  logger_info "Getting retriever for the vector store." [] ;;
  let k := py_or truthy_int k (Config.retrieval_k settings) in
  logger_debug "Using k=%d for retriever." [VInt k] ;;
  let retriever :=
    {| search_type := "similarity";
       search_kwargs := {["k" := VInt k]} |} in
  logger_info "Retriever obtained successfully." [] ;;
  ret retriever.

Definition get_collection_info (self : VectorStoreService) : M (gmap string PyVal) :=
  try_except
    (collection_info <- client_get_collection (collection_name self) ;;
     logger_info "Collection '%s' information obtained successfully."
       [VStr (collection_name self)] ;;
     ret (<["name" := VStr (collection_name self)]>
            (<["points_count" := VInt (points_count collection_info)]>
               {["status" := VStatus (status collection_info)]})))
    (fun e =>
       match e with
       | UnexpectedResponse _ _ _ => Some (
           logger_error "Failed to get collection info for '%s': %s"
             [VStr (collection_name self); VStr (exn_str e)] ;;
           ret (<["error" := VStr (exn_str e)]>
                  (<["points_count" := VInt 0]>
                     (<["indexed_vectors_count" := VInt 0]>
                        (<["created_at" := VNone]>
                           {["status" := VStr "Collection does not exist"]})))))
       | _ => None
       end).

(** A request of a kind the record of calls has no entry for (the record
    lists the probes, the creations and the calls of the store and of the
    embedding client): the fault in line for it, if any, decides; otherwise
    [op] answers on the server's state. *)
Definition request_unrecorded {A} (op : Server -> Exn + A * Server) : M A :=
  fun w =>
    let srv := qdrant w in
    let srv' := {| faults := tail (faults srv); collections := collections srv |} in
    match head (faults srv) with
    | Some (Some f) => (Raise (fault_exn f), set_qdrant (fun _ => srv') w)
    | _ =>
        match op srv' with
        | inl e => (Raise e, set_qdrant (fun _ => srv') w)
        | inr (a, srv'') => (Return a, set_qdrant (fun _ => srv'') w)
        end
    end.

(** [client.delete_collection(name)]: the server drops the collection and
    tells whether there was one. *)
Definition client_delete_collection (collection_name : string) : M bool :=
  request_unrecorded
    (fun srv =>
       inr (bool_decide (is_Some (collections srv !! collection_name)),
            {| faults := faults srv;
               collections := delete collection_name (collections srv) |})).

(** [client.get_collections()]: the names of the collections. *)
Definition client_get_collections : M (list string) :=
  request_unrecorded
    (fun srv => inr (map fst (map_to_list (collections srv)), srv)).

Definition delete_collection (self : VectorStoreService) : M unit :=
  logger_warning "Deleting collection '%s' from Qdrant." [VStr (collection_name self)] ;;
  client_delete_collection (collection_name self) ;;
  logger_info "Collection '%s' deleted successfully." [VStr (collection_name self)].

Definition health_check (self : VectorStoreService) : M bool :=
  logger_info "Performing health check on Qdrant client." [] ;;
  try_except
    (client_get_collections ;;
     ret true)
    (fun e => Some (
       logger_error "Qdrant client health check exception: %s" [VStr (exn_str e)] ;;
       ret false)).

End Vector_store.
End Vector_store.

(** ** The collection life cycle

    The service's view of its collection: [Unknown] until it has probed,
    then [Exists] or [Absent]; creating an [Absent] collection makes it
    [Exists]. *)

Inductive CollectionState := Unknown | Exists | Absent.

Inductive Action := Probe | Create.

Inductive lifecycle_step : CollectionState -> Action -> CollectionState -> Prop :=
| probe_exists : lifecycle_step Unknown Probe Exists
| probe_absent : lifecycle_step Unknown Probe Absent
| create_absent : lifecycle_step Absent Create Exists.

(** What a recorded call on the collection [name] tells the service: a probe
    that is answered shows the collection, a probe refused with an
    [UnexpectedResponse] reports it absent, a create that is answered made
    it.  Any other call, and any call that failed otherwise, tells nothing. *)
Definition learns (name : string) (r : CallRec) : option (Action * CollectionState) :=
  match call r, outcome r with
  | Get_collection n, Done =>
      if String.eqb n name then Some (Probe, Exists) else None
  | Get_collection n, Failed (UnexpectedResponse _ _ _) =>
      if String.eqb n name then Some (Probe, Absent) else None
  | Create_collection n _ _, Done =>
      if String.eqb n name then Some (Create, Exists) else None
  | _, _ => None
  end.

(** A sequence of recorded calls takes the view from one state to another
    through steps of the life cycle only. *)
Inductive follows (name : string) : CollectionState -> list CallRec -> CollectionState -> Prop :=
| follows_nil s : follows name s [] s
| follows_step s a s' r rs s'' :
    learns name r = Some (a, s') ->
    lifecycle_step s a s' ->
    follows name s' rs s'' ->
    follows name s (r :: rs) s''
| follows_skip s r rs s' :
    learns name r = None ->
    follows name s rs s' ->
    follows name s (r :: rs) s'.

(** The create calls among recorded calls. *)
Definition is_create (c : Call) : bool :=
  match c with
  | Create_collection _ _ _ => true
  | _ => false
  end.

Definition create_calls (rs : list CallRec) : list Call :=
  filter (fun c => is_create c = true) (map call rs).

(** ** A concrete environment to run the model in *)

Module Demo.

Definition text_of (data : list Byte.byte) : string :=
  string_of_list_ascii (map ascii_of_byte data).

Definition bytes_of (s : string) : list Byte.byte :=
  map byte_of_ascii (list_ascii_of_string s).

(** Stand-ins for the langchain loaders: one Document for a text file, one
    per data row (the lines after the header) for a CSV file, one page for
    a file that starts like a PDF file and a failure for any other. *)
Definition load_text (files : gmap string (list Byte.byte)) (path : string)
    : string + list Document :=
  match files !! path with
  | None => inl ("Error loading " +:+ path)
  | Some data =>
      inr [{| page_content := text_of data; metadata := {["source" := VStr path]} |}]
  end.

Definition load_rows (files : gmap string (list Byte.byte)) (path : string)
    : string + list Document :=
  match files !! path with
  | None => inl ("Error loading " +:+ path)
  | Some data =>
      let rows :=
        filter (fun r => r <> "") (tail (split_on (ascii_of_nat 10) (text_of data) [])) in
      inr (imap (fun i r =>
                   {| page_content := r;
                      metadata := <["source" := VStr path]> {["row" := VInt (Z.of_nat i)]} |})
             rows)
  end.

Definition load_pages (files : gmap string (list Byte.byte)) (path : string)
    : string + list Document :=
  match files !! path with
  | None => inl ("File path " +:+ path +:+ " is not a valid file or url")
  | Some data =>
      if String.prefix "%PDF" (text_of data) then
        inr [{| page_content := text_of data;
                metadata := <["source" := VStr path]> {["page" := VInt 0]} |}]
      else inl "EOF marker not found"
  end.

(** A store that accepts every insertion and finds nothing. *)
Definition external : External := {|
  settings := Config.defaults "sk-demo" "http://localhost:6333" "demo-key";
  gettempdir := "/tmp";
  tmp_candidate := fun n => "upload" +:+ pretty n;
  urandom16 := fun n => Z.of_nat n;
  PyPDFLoader_load := load_pages;
  TextLoader_load := load_text;
  CSVLoader_load := load_rows;
  embeddings_file := "/srv/rag/app/core/embeddings.py";
  embeddings_cached_file := "/srv/rag/app/core/__pycache__/embeddings.cpython-312.pyc";
  OpenAIEmbeddings_embed_query := fun _ => inr [0.25%float; 0.5%float];
  OpenAIEmbeddings_embed_documents :=
    fun texts => inr (map (fun _ => [0.25%float; 0.5%float]) texts);
  QdrantVectorStore_init := fun _ _ => inr tt;
  QdrantVectorStore_add_documents := fun srv _ _ _ => inr srv;
  QdrantVectorStore_similarity_search := fun _ _ _ _ => inr [];
  QdrantVectorStore_similarity_search_with_score := fun _ _ _ _ => inr []
|}.

(** A processor with the default sizes, and the two services. *)
Definition processor : Document_processor.DocumentProcessor :=
  {| Document_processor.chunk_size := 1000;
     Document_processor.chunk_overlap := 200;
     Document_processor.text_splitter :=
       {| Document_processor.splitter_chunk_size := 1000;
          Document_processor.splitter_chunk_overlap := 200;
          Document_processor.separators :=
            [newline +:+ newline; newline; ". "; " "; ""] |} |}.

Definition embedding_service : Embeddings.EmbeddingService :=
  {| Embeddings.embeddings :=
       {| Embeddings.model := "text-embedding-3-small";
          Embeddings.openai_api_key := "sk-demo" |};
     Embeddings.model_name := "text-embedding-3-small" |}.

Definition service (collection_name : string) : Vector_store.VectorStoreService :=
  {| Vector_store.collection_name := collection_name;
     Vector_store.client :=
       {| Vector_store.url := "http://localhost:6333";
          Vector_store.api_key := "demo-key" |};
     Vector_store.embeddings := Embeddings.embeddings embedding_service |}.

(** A fresh process in front of an empty, healthy server. *)
Definition world : World :=
  {| log_records := [];
     fs := ∅;
     tmp_seq := 0;
     heap := ∅;
     qdrant := {| faults := []; collections := ∅ |};
     calls := [];
     urandom_pos := 0;
     embeddings_cached := false;
     qdrant_client_cached := false |}.

(** The same with one stream object, at reference [0]. *)
Definition world_with_stream (io : BinaryIO) : World :=
  set_heap (insert 0%nat io) world.

Definition stream_of (s : string) : BinaryIO :=
  {| io_bytes := bytes_of s; io_pos := 0; io_closed := false |}.

Definition closed_stream : BinaryIO :=
  {| io_bytes := []; io_pos := 0; io_closed := true |}.

(** The same in front of a server whose next request meets the fault [f]. *)
Definition world_with_fault (f : Fault) : World :=
  set_qdrant (fun srv => {| faults := [Some f]; collections := collections srv |}) world.

(** Two chunks to store. *)
Definition chunks : list Document :=
  [{| page_content := "alpha"; metadata := {["source" := VStr "notes.txt"]} |};
   {| page_content := "beta"; metadata := {["source" := VStr "notes.txt"]} |}].

(** A stand-in for the text splitter: every document is cut in two chunks,
    each with the metadata of the document. *)
Definition splitting : Document_processor.Splitting := {|
  Document_processor.TextSplitter_split_documents :=
    fun _ documents =>
      inr (flat_map
             (fun doc =>
                let text := page_content doc in
                let half := Nat.div (String.length text) 2 in
                [{| page_content := String.substring 0 half text;
                    metadata := metadata doc |};
                 {| page_content := String.substring half (String.length text - half) text;
                    metadata := metadata doc |}])
             documents)
|}.

(** The same environment with a langchain store that refuses every
    collection. *)
Definition external_with_refusing_store : External := {|
  settings := @settings external;
  gettempdir := @gettempdir external;
  tmp_candidate := @tmp_candidate external;
  urandom16 := @urandom16 external;
  PyPDFLoader_load := @PyPDFLoader_load external;
  TextLoader_load := @TextLoader_load external;
  CSVLoader_load := @CSVLoader_load external;
  embeddings_file := @embeddings_file external;
  embeddings_cached_file := @embeddings_cached_file external;
  OpenAIEmbeddings_embed_query := @OpenAIEmbeddings_embed_query external;
  OpenAIEmbeddings_embed_documents := @OpenAIEmbeddings_embed_documents external;
  QdrantVectorStore_init := fun _ _ => inl "Existing Qdrant collection is misconfigured";
  QdrantVectorStore_add_documents := @QdrantVectorStore_add_documents external;
  QdrantVectorStore_similarity_search := @QdrantVectorStore_similarity_search external;
  QdrantVectorStore_similarity_search_with_score :=
    @QdrantVectorStore_similarity_search_with_score external
|}.

(** A fresh process in front of a healthy server that has the collection
    [name], and the same with faults in line. *)
Definition world_with_collection (name : string) (info : Collection) : World :=
  set_qdrant (fun srv => {| faults := []; collections := <[name := info]> (collections srv) |})
    world.

Definition world_with_collection_and_faults
    (name : string) (info : Collection) (fl : list (option Fault)) : World :=
  set_qdrant (fun srv => {| faults := fl; collections := <[name := info]> (collections srv) |})
    world.

(** A collection of 768-dimensional vectors under the dot product. *)
Definition small_collection : Collection :=
  {| vectors_size := 768; vectors_distance := DOT; points_count := 12; status := GREEN |}.

Definition report_csv : string :=
  "name,score" +:+ newline +:+ "ann,3" +:+ newline +:+ "bob,5" +:+ newline
  +:+ "cid,8" +:+ newline.

End Demo.

(** ** Vocabulary of the statements *)

Section Vocabulary.
Context `{External}.

(** One of the three langchain loaders [load_file] dispatches to. *)
Definition is_library_loader
    (load : gmap string (list Byte.byte) -> string -> string + list Document) : Prop :=
  load = PyPDFLoader_load \/ load = TextLoader_load \/ load = CSVLoader_load.

(** The exception of the extension checks of [load_file] and
    [load_from_upload]. *)
Definition unsupported (extension : string) : Exn :=
  ValueError ("Unsupported file extension: " +:+ extension).

(** The extension [load_file] and [load_from_upload] dispatch on. *)
Definition extension_of (filename : string) : string :=
  lower (Path.suffix (Path.of_str filename)).

(** The records of the probe and of the create call of
    [_ensure_collection]. *)
Definition probe_record (name : string) (o : Outcome) : CallRec :=
  {| call := Get_collection name; outcome := o |}.

Definition create_record (name : string) (o : Outcome) : CallRec :=
  {| call := Create_collection name 1536 COSINE; outcome := o |}.

End Vocabulary.

Section Vocabulary_of_the_further_statements.
Context `{External}.

(** The langchain loader [load_file] has for an extension. *)
Definition loader_for (extension : string)
    : gmap string (list Byte.byte) -> string -> string + list Document :=
  if String.eqb extension ".pdf" then PyPDFLoader_load
  else if String.eqb extension ".txt" then TextLoader_load
  else CSVLoader_load.

(** The path a loader is given for [file_path]: [load_file] and the loading
    method each go through [str(Path(...))]. *)
Definition path_for_loader (file_path : string) : string :=
  Path.str (Path.of_str (Path.str (Path.of_str file_path))).




(** The collection [create_collection(size=1536, distance=COSINE)] makes. *)
Definition fresh_collection : Collection :=
  {| vectors_size := 1536; vectors_distance := COSINE; points_count := 0; status := GREEN |}.

(** A splitter gives each chunk the source of a document it was given. *)
Definition keeps_sources `{Document_processor.Splitting} : Prop :=
  forall splitter documents chunks,
    Document_processor.TextSplitter_split_documents splitter documents = inr chunks ->
    forall chunk, chunk ∈ chunks ->
    exists doc, doc ∈ documents /\ metadata chunk !! "source" = metadata doc !! "source".

End Vocabulary_of_the_further_statements.

(** * Properties *)

(** Unfolding of the monad's primitive operations. *)
Ltac run :=
  unfold logger_debug, logger_info, logger_warning, logger_error, logger_call,
    library_call, record_call in *;
  unfold bind, ret, raise, gets, modify, try_except, try_finally in *;
  cbn [fst snd log_records fs tmp_seq heap qdrant calls urandom_pos
       embeddings_cached qdrant_client_cached set_log_records set_fs
       set_tmp_seq set_heap set_qdrant set_calls set_urandom_pos
       set_embeddings_cached set_qdrant_client_cached] in *.

(** Deciding a closed decidable proposition by evaluation. *)
Ltac by_evaluation :=
  match goal with
  | |- ?P => apply (bool_decide_unpack P); vm_compute; exact I
  end.

(** ** embeddings.py *)

Section Embeddings_properties.
Context `{External}.
Import Embeddings.

Lemma embedding_is_unbound :
  load_global "embedding" = raise (NameError "embedding").
Proof. vm_compute. reflexivity. Qed.

Lemma embeddings_is_unbound :
  load_global "embeddings" = raise (NameError "embeddings").
Proof. vm_compute. reflexivity. Qed.

(** C1: whenever the remote embedding call succeeds, [embed_query] and
    [embed_documents] do not return its vectors: evaluating the argument of
    the second [logger.debug] reads a name that nothing binds ([embedding],
    respectively [embeddings]) and the method raises [NameError].  When the
    remote call fails, its exception propagates. *)
Theorem embed_methods_raise_NameError (self : EmbeddingService) :
  (forall text w,
      fst (embed_query self text w) =
      match OpenAIEmbeddings_embed_query text with
      | inl failure => Raise (LibraryError failure)
      | inr _ => Raise (NameError "embedding")
      end)
  /\ (forall texts w,
      fst (embed_documents self texts w) =
      match OpenAIEmbeddings_embed_documents texts with
      | inl failure => Raise (LibraryError failure)
      | inr _ => Raise (NameError "embeddings")
      end).
Proof.
  split; intros x w.
  - unfold embed_query, client_embed_query.
    rewrite embedding_is_unbound. run.
    destruct (OpenAIEmbeddings_embed_query x); reflexivity.
  - unfold embed_documents, client_embed_documents.
    rewrite embeddings_is_unbound. run.
    destruct (OpenAIEmbeddings_embed_documents x); reflexivity.
Qed.

End Embeddings_properties.

(** ** document_processor.py *)

Section Document_processor_properties.
Context `{External}.
Import Document_processor.

Lemma supported_cases (extension : string) :
  extension ∈ SUPPORTED_EXTENSIONS ->
  extension = ".pdf" \/ extension = ".txt" \/ extension = ".csv".
Proof.
  unfold SUPPORTED_EXTENSIONS. intros Hin.
  repeat (apply elem_of_cons in Hin as [-> | Hin]); auto.
  apply elem_of_nil in Hin. destruct Hin.
Qed.

(** On a supported extension [load_file] is the call of one library
    loader: its documents or its failure, and the files stay as they are. *)
Lemma load_file_supported (self : DocumentProcessor) (file_path : string) (w : World) :
  extension_of file_path ∈ SUPPORTED_EXTENSIONS ->
  exists load path,
    is_library_loader load
    /\ fst (load_file self file_path w) =
       match load (fs w) path with
       | inl failure => Raise (LibraryError failure)
       | inr documents => Return documents
       end
    /\ fs (snd (load_file self file_path w)) = fs w
    /\ heap (snd (load_file self file_path w)) = heap w.
Proof.
  intros Hin. unfold load_file. fold (extension_of file_path).
  rewrite bool_decide_eq_true_2 by exact Hin. cbn [negb].
  set (p := Path.str (Path.of_str file_path)).
  destruct (supported_cases _ Hin) as [-> | [-> | ->]].
  - exists PyPDFLoader_load, (Path.str (Path.of_str p)).
    split; [left; reflexivity|].
    unfold loaders, getitem. cbn [String.eqb Ascii.eqb Bool.eqb].
    unfold load_pdf, loader_load. run.
    destruct (PyPDFLoader_load _ _); auto.
  - exists TextLoader_load, (Path.str (Path.of_str p)).
    split; [right; left; reflexivity|].
    unfold loaders, getitem. cbn [String.eqb Ascii.eqb Bool.eqb].
    unfold load_txt, loader_load. run.
    destruct (TextLoader_load _ _); auto.
  - exists CSVLoader_load, (Path.str (Path.of_str p)).
    split; [right; right; reflexivity|].
    unfold loaders, getitem. cbn [String.eqb Ascii.eqb Bool.eqb].
    unfold load_csv, loader_load. run.
    destruct (CSVLoader_load _ _); auto.
Qed.

Lemma load_file_unsupported (self : DocumentProcessor) (file_path : string) (w : World) :
  extension_of file_path ∉ SUPPORTED_EXTENSIONS ->
  load_file self file_path w = (Raise (unsupported (extension_of file_path)), w).
Proof.
  intros Hnot. unfold load_file. fold (extension_of file_path).
  rewrite bool_decide_eq_false_2 by exact Hnot. reflexivity.
Qed.

Lemma load_file_returns (self : DocumentProcessor) (file_path : string)
    (w w' : World) (documents : list Document) :
  load_file self file_path w = (Return documents, w') ->
  exists load path, is_library_loader load /\ load (fs w) path = inr documents.
Proof.
  intros Hrun.
  destruct (decide (extension_of file_path ∈ SUPPORTED_EXTENSIONS)) as [Hin | Hnot].
  - destruct (load_file_supported self file_path w Hin) as (load & path & Hl & Hres & _).
    exists load, path. split; [exact Hl|].
    rewrite Hrun in Hres. cbn [fst] in Hres.
    destruct (load (fs w) path); congruence.
  - rewrite (load_file_unsupported self file_path w Hnot) in Hrun. discriminate.
Qed.

(** [_mkstemp_inner] either creates an empty file under a name that was
    free, or gives up and leaves the files as they were. *)
Lemma mkstemp_inner_outcome (attempts : nat) (dir pre suf : string) (w : World) :
  heap (snd (_mkstemp_inner attempts dir pre suf w)) = heap w
  /\ ((exists temp,
          fst (_mkstemp_inner attempts dir pre suf w) = Return temp
          /\ fs w !! temp = None
          /\ fs (snd (_mkstemp_inner attempts dir pre suf w)) = <[temp := []]> (fs w))
      \/ (fst (_mkstemp_inner attempts dir pre suf w) =
            Raise (FileExistsError "No usable temporary file name found")
          /\ fs (snd (_mkstemp_inner attempts dir pre suf w)) = fs w)).
Proof.
  revert w. induction attempts as [| attempts IH]; intros w.
  - cbn [_mkstemp_inner]. run. split; [reflexivity|]. right. split; reflexivity.
  - cbn [_mkstemp_inner]. run.
    destruct (fs w !! (dir +:+ "/" +:+ pre +:+ tmp_candidate (tmp_seq w) +:+ suf))
      as [existing |] eqn:Hfree.
    + apply (IH (set_tmp_seq S w)).
    + run. split; [reflexivity|]. left. eexists. repeat split. exact Hfree.
Qed.

(** C6: when reading the upload fails (here: the stream is closed), the
    temporary file [NamedTemporaryFile(delete=False)] has just created is
    still on disk when the exception leaves [load_from_upload]: the
    [try ... finally] that unlinks it starts only after the [with] block. *)
Theorem load_from_upload_leaks_temp_file
    (self : DocumentProcessor) (file : nat) (filename : string) (w w1 : World)
    (io : BinaryIO) (temp : string) :
  extension_of filename ∈ SUPPORTED_EXTENSIONS ->
  NamedTemporaryFile (extension_of filename) w = (Return temp, w1) ->
  heap w !! file = Some io ->
  io_closed io = true ->
  load_from_upload self file filename w =
    (Raise (ValueError "I/O operation on closed file."), w1)
  /\ fs w !! temp = None
  /\ fs w1 = <[temp := []]> (fs w).
Proof.
  intros Hin Hmk Hio Hclosed.
  pose proof (mkstemp_inner_outcome TMP_MAX gettempdir "tmp" (extension_of filename) w)
    as (Hheap & Hcase).
  unfold NamedTemporaryFile in Hmk. rewrite Hmk in Hheap, Hcase. cbn [fst snd] in Hheap, Hcase.
  destruct Hcase as [(temp' & [= <-] & Hfree & Hfs) | (Hres & _)]; [| discriminate].
  split; [| split; assumption].
  unfold load_from_upload. fold (extension_of filename).
  rewrite bool_decide_eq_true_2 by exact Hin. cbn [negb].
  unfold NamedTemporaryFile, read. run. rewrite Hmk. cbn [fst snd].
  rewrite Hheap, Hio, Hclosed. reflexivity.
Qed.



Lemma set_source_source (filename : string) (doc : Document) :
  metadata (set_source filename doc) !! "source" = Some (VStr filename).
Proof. unfold set_source. cbn [metadata]. apply lookup_insert_eq. Qed.

Lemma set_source_other (filename key : string) (doc : Document) :
  key <> "source" ->
  metadata (set_source filename doc) !! key = metadata doc !! key.
Proof.
  intros Hne. unfold set_source. cbn [metadata].
  apply lookup_insert_ne. congruence.
Qed.

(** What [load_from_upload] returns is what [load_file] returned for the
    temporary file, with the source of every document overwritten. *)
Lemma load_from_upload_returns
    (self : DocumentProcessor) (file : nat) (filename : string) (w w' : World)
    (documents : list Document) :
  load_from_upload self file filename w = (Return documents, w') ->
  exists load files path loaded,
    is_library_loader load
    /\ load files path = inr loaded
    /\ documents = map (set_source filename) loaded.
Proof.
  unfold load_from_upload. fold (extension_of filename).
  destruct (bool_decide (extension_of filename ∈ SUPPORTED_EXTENSIONS)); cbn [negb];
    [| discriminate].
  unfold bind at 1.
  destruct ((temp_file <- NamedTemporaryFile (extension_of filename) ;;
             data <- read file ;; write temp_file data ;; ret temp_file) w)
    as [[temp | e] w1]; [| discriminate].
  unfold try_finally, unlink, modify, bind.
  destruct (load_file self temp w1) as [[loaded | e] w2] eqn:Hload;
    cbn; [| discriminate].
  intros [= <- _].
  destruct (load_file_returns _ _ _ _ _ Hload) as (load & path & Hl & Hres).
  exists load, (fs w1), path, loaded. auto.
Qed.

(** C7: every document a successful [load_from_upload] returns carries the
    caller's filename as its [source]; apart from that entry the documents
    are the ones the loader produced, in the same number and order, with
    their text and every other metadata entry unchanged. *)
Theorem load_from_upload_overwrites_source
    (self : DocumentProcessor) (file : nat) (filename : string) (w w' : World)
    (documents : list Document) :
  load_from_upload self file filename w = (Return documents, w') ->
  Forall (fun doc => metadata doc !! "source" = Some (VStr filename)) documents
  /\ exists load files path loaded,
      is_library_loader load
      /\ load files path = inr loaded
      /\ length documents = length loaded
      /\ Forall2 (fun doc0 doc =>
                    page_content doc = page_content doc0
                    /\ forall key, key <> "source" ->
                                   metadata doc !! key = metadata doc0 !! key)
           loaded documents.
Proof.
  intros Hrun.
  destruct (load_from_upload_returns _ _ _ _ _ _ Hrun)
    as (load & files & path & loaded & Hl & Hres & ->).
  split.
  - apply Forall_forall. intros doc Hdoc.
    apply list_elem_of_fmap in Hdoc as (doc0 & -> & _).
    apply set_source_source.
  - exists load, files, path, loaded. repeat split; try assumption.
    + apply length_map.
    + clear. induction loaded as [| doc0 loaded IH]; cbn [map]; constructor.
      * split; [reflexivity|]. intros key Hne. apply set_source_other, Hne.
      * exact IH.
Qed.

Lemma unsupported_inj (a b : string) : unsupported a = unsupported b -> a = b.
Proof.
  unfold unsupported. intros [= Heq]. exact Heq.
Qed.

Lemma load_from_upload_unsupported
    (self : DocumentProcessor) (file : nat) (filename : string) (w : World) :
  extension_of filename ∉ SUPPORTED_EXTENSIONS ->
  load_from_upload self file filename w = (Raise (unsupported (extension_of filename)), w).
Proof.
  intros Hnot. unfold load_from_upload. fold (extension_of filename).
  rewrite bool_decide_eq_false_2 by exact Hnot. reflexivity.
Qed.

(** With a supported extension, whatever [load_from_upload] raises is not
    the unsupported-extension error for that extension. *)
Lemma load_from_upload_supported
    (self : DocumentProcessor) (file : nat) (filename : string) (w : World) :
  extension_of filename ∈ SUPPORTED_EXTENSIONS ->
  fst (load_from_upload self file filename w) <> Raise (unsupported (extension_of filename)).
Proof.
  intros Hin. unfold load_from_upload. fold (extension_of filename).
  rewrite bool_decide_eq_true_2 by exact Hin. cbn [negb].
  unfold NamedTemporaryFile.
  destruct (mkstemp_inner_outcome TMP_MAX gettempdir "tmp" (extension_of filename) w)
    as (_ & [(temp & Hres & _) | (Hres & _)]);
    destruct (_mkstemp_inner TMP_MAX gettempdir "tmp" (extension_of filename) w)
      as [r w1] eqn:Hmk;
    cbn [fst snd] in Hres; subst r; unfold bind at 1; unfold bind at 1;
    rewrite Hmk; [| cbn; discriminate].
  unfold read. run.
  destruct (heap w1 !! file) as [io |]; [| cbn; discriminate].
  destruct (io_closed io); [cbn; unfold unsupported; cbn; discriminate |].
  unfold write, unlink. run.
  set (w2 := set_fs _ (set_heap _ w1)).
  destruct (decide (extension_of temp ∈ SUPPORTED_EXTENSIONS)) as [Hin' | Hnot'].
  - destruct (load_file_supported self temp w2 Hin') as (load & path & _ & Hres & _).
    destruct (load_file self temp w2) as [[loaded | e] w3]; cbn [fst snd] in *.
    + discriminate.
    + destruct (load (fs w2) path); [| discriminate].
      injection Hres as ->. unfold unsupported. discriminate.
  - rewrite (load_file_unsupported self temp w2 Hnot'). cbn [fst snd].
    intros [= Heq]. apply Hnot'.
    rewrite (unsupported_inj (extension_of temp) (extension_of filename)); [exact Hin|].
    unfold unsupported. do 2 f_equal. exact Heq.
Qed.

Lemma uppercase_supported (e : string) :
  e ∈ [".PDF"; ".TXT"; ".CSV"] -> lower e ∈ SUPPORTED_EXTENSIONS.
Proof.
  intros Hin.
  repeat (apply elem_of_cons in Hin as [-> | Hin]);
    [| | | apply elem_of_nil in Hin; destruct Hin];
    vm_compute; repeat constructor.
Qed.

(** C10: [load_file] and [load_from_upload] decide on the lower-cased
    extension, so [.PDF], [.TXT] and [.CSV] pass the check; each raises the
    unsupported-extension error exactly when the lower-cased extension is
    outside the supported set; and [load_from_upload] raises it with the
    world untouched: no byte of the upload read, no temporary file made. *)
Theorem unsupported_extension_iff (self : DocumentProcessor) :
  (forall file_path w,
      fst (load_file self file_path w) = Raise (unsupported (extension_of file_path))
      <-> extension_of file_path ∉ SUPPORTED_EXTENSIONS)
  /\ (forall file filename w,
      fst (load_from_upload self file filename w) = Raise (unsupported (extension_of filename))
      <-> extension_of filename ∉ SUPPORTED_EXTENSIONS)
  /\ (forall file filename w,
      extension_of filename ∉ SUPPORTED_EXTENSIONS ->
      load_from_upload self file filename w = (Raise (unsupported (extension_of filename)), w))
  /\ (forall filename,
      Path.suffix (Path.of_str filename) ∈ [".PDF"; ".TXT"; ".CSV"] ->
      extension_of filename ∈ SUPPORTED_EXTENSIONS).
Proof.
  repeat split.
  - intros Hres Hin.
    destruct (load_file_supported self file_path w Hin) as (load & path & _ & Hshape & _).
    rewrite Hres in Hshape. destruct (load (fs w) path); discriminate.
  - intros Hnot. rewrite (load_file_unsupported self file_path w Hnot). reflexivity.
  - intros Hres Hin. exact (load_from_upload_supported self file filename w Hin Hres).
  - intros Hnot. rewrite (load_from_upload_unsupported self file filename w Hnot). reflexivity.
  - intros file filename w. apply load_from_upload_unsupported.
  - intros filename. apply uppercase_supported.
Qed.

(** C5 (amended): the constructor checks the effective pair, the one left
    once each falsy argument has given way to the configured default.  An
    effective overlap above the effective size is refused, at construction
    time, with a [ValueError]; a non-negative effective overlap that does
    not exceed a positive effective size is accepted. *)
Theorem processor_init_checks_effective_sizes (chunk_size chunk_overlap : option Z) (w : World) :
  let size := py_or truthy_int chunk_size (Config.chunk_size settings) in
  let overlap := py_or truthy_int chunk_overlap (Config.chunk_overlap settings) in
  ((overlap > size)%Z ->
     exists msg, __init__ chunk_size chunk_overlap w = (Raise (ValueError msg), w))
  /\ ((0 < size /\ 0 <= overlap <= size)%Z ->
     exists self w',
       __init__ chunk_size chunk_overlap w = (Return self, w')
       /\ Document_processor.chunk_size self = size
       /\ Document_processor.chunk_overlap self = overlap
       /\ splitter_chunk_size (text_splitter self) = size
       /\ splitter_chunk_overlap (text_splitter self) = overlap).
Proof.
  intros size overlap. unfold __init__. fold size overlap.
  unfold RecursiveCharacterTextSplitter. split; intros Hcmp.
  - destruct (size <=? 0)%Z; [run; eauto|].
    destruct (overlap <? 0)%Z; [run; eauto|].
    destruct (overlap >? size)%Z eqn:Hgt; [run; eauto|].
    rewrite Z.gtb_ltb in Hgt. apply Z.ltb_ge in Hgt. lia.
  - destruct (size <=? 0)%Z eqn:H1; [apply Z.leb_le in H1; lia|].
    destruct (overlap <? 0)%Z eqn:H2; [apply Z.ltb_lt in H2; lia|].
    destruct (overlap >? size)%Z eqn:H3.
    + rewrite Z.gtb_ltb in H3. apply Z.ltb_lt in H3. lia.
    + run. eexists _, _. repeat split.
Qed.

End Document_processor_properties.

(** ** document_processor.py in the demo environment *)

Section Document_processor_runs.
#[local] Existing Instance Demo.external.
Import Document_processor.

(** C5, as stated, fails both ways under the default settings (size 1000,
    overlap 200): the pairs (0, 0) and (1000, 1000) have their overlap not
    below their size and are accepted, the first because both arguments
    give way to the defaults, the second because the splitter refuses only
    an overlap above the size; the pair (5, 0) has its overlap below its
    size and is refused, the overlap giving way to the default 200. *)
Lemma overlap_check_counterexample :
  (exists self w', __init__ (Some 0%Z) (Some 0%Z) Demo.world = (Return self, w'))
  /\ (exists self w', __init__ (Some 1000%Z) (Some 1000%Z) Demo.world = (Return self, w'))
  /\ (exists msg, __init__ (Some 5%Z) (Some 0%Z) Demo.world = (Raise (ValueError msg), Demo.world)).
Proof.
  split; [| split].
  - eexists _, _. vm_compute. reflexivity.
  - eexists _, _. vm_compute. reflexivity.
  - eexists. vm_compute. reflexivity.
Qed.

Lemma processor_init_checks_effective_sizes_witness :
  (exists msg, __init__ (Some 5%Z) (Some 0%Z) Demo.world = (Raise (ValueError msg), Demo.world))
  /\ (exists self w',
        __init__ (Some 800%Z) None Demo.world = (Return self, w')
        /\ Document_processor.chunk_size self = 800%Z
        /\ Document_processor.chunk_overlap self = 200%Z
        /\ splitter_chunk_size (text_splitter self) = 800%Z
        /\ splitter_chunk_overlap (text_splitter self) = 200%Z).
Proof.
  split.
  - assert (Hcmp : (200 > 5)%Z) by lia.
    exact (proj1 (processor_init_checks_effective_sizes (Some 5%Z) (Some 0%Z) Demo.world) Hcmp).
  - assert (Hcmp : (0 < 800 /\ 0 <= 200 <= 800)%Z) by lia.
    exact (proj2 (processor_init_checks_effective_sizes (Some 800%Z) None Demo.world) Hcmp).
Defined.

(** The failing run of C6: a closed upload stream named [notes.TXT]. *)
Lemma load_from_upload_leaks_temp_file_witness :
  exists temp w1,
    load_from_upload Demo.processor 0 "notes.TXT"
      (Demo.world_with_stream Demo.closed_stream) =
      (Raise (ValueError "I/O operation on closed file."), w1)
    /\ fs (Demo.world_with_stream Demo.closed_stream) !! temp = None
    /\ fs w1 = <[temp := []]> (fs (Demo.world_with_stream Demo.closed_stream)).
Proof.
  eexists _, _.
  eapply (load_from_upload_leaks_temp_file Demo.processor 0 "notes.TXT"
            (Demo.world_with_stream Demo.closed_stream) _ Demo.closed_stream _).
  - by_evaluation.
  - vm_compute. reflexivity.
  - vm_compute. reflexivity.
  - reflexivity.
Defined.

(** In that run the exception is the stream's and the empty temporary
    file [/tmp/tmpupload0.txt] is what stays behind. *)
Example closed_upload_leaves_temp_file :
  let run := load_from_upload Demo.processor 0 "notes.TXT"
               (Demo.world_with_stream Demo.closed_stream) in
  fst run = Raise (ValueError "I/O operation on closed file.")
  /\ fs (Demo.world_with_stream Demo.closed_stream) !! "/tmp/tmpupload0.txt" = None
  /\ fs (snd run) !! "/tmp/tmpupload0.txt" = Some [].
Proof. vm_compute. repeat split. Qed.

(** Once the upload has been read the temporary file is removed, whether
    the loader succeeds (a CSV upload) or fails (text uploaded as PDF). *)
Example read_upload_leaves_no_temp_file :
  let loaded := load_from_upload Demo.processor 0 "report.csv"
                  (Demo.world_with_stream (Demo.stream_of Demo.report_csv)) in
  let failed := load_from_upload Demo.processor 0 "report.pdf"
                  (Demo.world_with_stream (Demo.stream_of "not a PDF")) in
  (exists documents, fst loaded = Return documents)
  /\ fs (snd loaded) = ∅
  /\ fst failed = Raise (LibraryError "EOF marker not found")
  /\ fs (snd failed) = ∅.
Proof.
  split; [eexists; vm_compute; reflexivity|].
  repeat split; vm_compute; reflexivity.
Qed.

(** The scenario of C7: a CSV upload of three data rows named
    [report.csv]. *)
Lemma load_from_upload_overwrites_source_witness :
  exists documents w',
    load_from_upload Demo.processor 0 "report.csv"
      (Demo.world_with_stream (Demo.stream_of Demo.report_csv)) = (Return documents, w')
    /\ length documents = 3%nat
    /\ Forall (fun doc => metadata doc !! "source" = Some (VStr "report.csv")) documents.
Proof.
  destruct (load_from_upload Demo.processor 0 "report.csv"
              (Demo.world_with_stream (Demo.stream_of Demo.report_csv)))
    as [[documents | e] w'] eqn:Hrun.
  - exists documents, w'. split; [reflexivity|]. split.
    + vm_compute in Hrun. injection Hrun as <- _. reflexivity.
    + exact (proj1 (load_from_upload_overwrites_source _ _ _ _ _ _ Hrun)).
  - vm_compute in Hrun. discriminate Hrun.
Defined.

Lemma unsupported_extension_iff_witness :
  extension_of "REPORT.PDF" ∈ SUPPORTED_EXTENSIONS
  /\ fst (load_file Demo.processor "REPORT.PDF" Demo.world) <> Raise (unsupported ".pdf")
  /\ load_from_upload Demo.processor 0 "slides.PPTX"
       (Demo.world_with_stream (Demo.stream_of "x")) =
     (Raise (unsupported ".pptx"), Demo.world_with_stream (Demo.stream_of "x")).
Proof.
  destruct (unsupported_extension_iff Demo.processor) as (Hfile & _ & Hupload & Hupper).
  assert (Hin : extension_of "REPORT.PDF" ∈ SUPPORTED_EXTENSIONS).
  { apply Hupper. by_evaluation. }
  split; [exact Hin|]. split.
  - intros Hres. exact (proj1 (Hfile "REPORT.PDF" Demo.world) Hres Hin).
  - apply (Hupload 0%nat "slides.PPTX"). by_evaluation.
Defined.

End Document_processor_runs.

(** ** vector_store.py *)

Section Vector_store_properties.
Context `{External}.
Import Vector_store.

(** The three ways [_ensure_collection] can go: the probe is answered; the
    probe is refused with an [UnexpectedResponse] and one create call
    follows, whose outcome is the method's; the probe fails otherwise and
    its exception leaves the method. *)
Lemma ensure_collection_outcome (self : VectorStoreService) (w : World) :
  let name := collection_name self in
  let run := _ensure_collection self w in
  (fst run = Return tt
   /\ calls (snd run) = calls w ++ [probe_record name Done]
   /\ is_Some (collections (qdrant (snd run)) !! name)
   /\ faults (qdrant (snd run)) = tail (faults (qdrant w)))
  \/ (exists c r t o,
        calls (snd run) =
          calls w ++ [probe_record name (Failed (UnexpectedResponse c r t));
                      create_record name o]
        /\ fst run = match o with Done => Return tt | Failed e => Raise e end
        /\ (o = Done -> is_Some (collections (qdrant (snd run)) !! name))
        /\ faults (qdrant (snd run)) = tail (tail (faults (qdrant w))))
  \/ (exists e,
        (forall c r t, e <> UnexpectedResponse c r t)
        /\ calls (snd run) = calls w ++ [probe_record name (Failed e)]
        /\ fst run = Raise e).
Proof.
  intros name run. subst run. unfold _ensure_collection. fold name.
  unfold client_get_collection, client_create_collection, request.
  unfold probe_record, create_record. run. cbn [collections faults].
  destruct (head (faults (qdrant w))) as [[[| c r t] |] |];
    cbn [fault_exn];
    try destruct (collections (qdrant w) !! name) as [info |] eqn:Hlookup;
    run; cbn [collections faults].
  all: try (destruct (head (tail (faults (qdrant w)))) as [[f |] |];
            rewrite ?Hlookup; run; cbn [collections faults]).
  all: try (destruct (collections (qdrant w) !! name) as [info |] eqn:Hlookup;
            run; cbn [collections faults]).
  all: rewrite <- ?app_assoc; cbn [app].
  all: try (left; repeat split; eauto; fail).
  all: try (right; right; eexists; repeat split; intros; discriminate).
  all: right; left; eexists _, _, _, _.
  all: (split; [reflexivity|]).
  all: repeat split; try discriminate.
  all: intros _; rewrite lookup_insert_eq; eauto.
Qed.

(** [__init__] is [_ensure_collection] on the effective collection name,
    after steps that neither call the server nor change it, followed, when
    it returns, by the construction of the langchain store. *)
Lemma service_init_outcome (collection_name : option string) (w : World) :
  let name := py_or truthy_str collection_name (Config.qdrant_collection_name settings) in
  let run := __init__ collection_name w in
  exists self w0,
    Vector_store.collection_name self = name
    /\ calls w0 = calls w
    /\ qdrant w0 = qdrant w
    /\ match _ensure_collection self w0 with
       | (Raise e, w1) =>
           fst run = Raise e /\ calls (snd run) = calls w1 /\ qdrant (snd run) = qdrant w1
       | (Return _, w1) =>
           exists o,
             calls (snd run) = calls w1 ++ [{| call := Store_init name; outcome := o |}]
             /\ qdrant (snd run) = qdrant w1
             /\ fst run = match o with Done => Return self | Failed e => Raise e end
       end.
Proof.
  intros name run. subst run. unfold __init__. fold name.
  unfold get_qdrant_client, Embeddings.get_embeddings, QdrantVectorStore. run.
  destruct (qdrant_client_cached w); run.
  all: destruct (embeddings_cached w); run.
  all: match goal with
       | |- context [_ensure_collection ?s ?w0] =>
           exists s, w0; repeat (split; [reflexivity|]);
           destruct (_ensure_collection s w0) as [[[] | e] w1]
       end.
  all: cbn [Vector_store.collection_name]; run; auto.
  all: destruct (QdrantVectorStore_init (qdrant w1) name) as [failure | []].
  all: first [ exists Done; run; repeat split; reflexivity
             | eexists (Failed _); run; repeat split; reflexivity ].
Qed.

(** On a server that has the collection and no fault in line, the probe is
    answered and nothing else is called. *)
Lemma ensure_collection_existing (self : VectorStoreService) (w : World) :
  faults (qdrant w) = [] ->
  is_Some (collections (qdrant w) !! collection_name self) ->
  fst (_ensure_collection self w) = Return tt
  /\ calls (snd (_ensure_collection self w)) =
     calls w ++ [probe_record (collection_name self) Done]
  /\ qdrant (snd (_ensure_collection self w)) = qdrant w.
Proof.
  intros Hfaults [info Hlookup]. unfold _ensure_collection.
  unfold client_get_collection, request. run.
  rewrite Hfaults. cbn [head tail collections]. rewrite Hlookup. run.
  repeat split. destruct (qdrant w) as [fl cs]. cbn in *. subst fl. reflexivity.
Qed.

Lemma learns_probe_done (name : string) :
  learns name (probe_record name Done) = Some (Probe, Exists).
Proof. unfold learns. cbn. rewrite String.eqb_refl. reflexivity. Qed.

Lemma learns_probe_refused (name : string) (c : Z) (r t : string) :
  learns name (probe_record name (Failed (UnexpectedResponse c r t))) = Some (Probe, Absent).
Proof. unfold learns. cbn. rewrite String.eqb_refl. reflexivity. Qed.

Lemma learns_probe_failed (name : string) (e : Exn) :
  (forall c r t, e <> UnexpectedResponse c r t) ->
  learns name (probe_record name (Failed e)) = None.
Proof.
  intros Hother. unfold learns. cbn. destruct e; try reflexivity.
  exfalso. eapply Hother. reflexivity.
Qed.

Lemma learns_create_done (name : string) :
  learns name (create_record name Done) = Some (Create, Exists).
Proof. unfold learns. cbn. rewrite String.eqb_refl. reflexivity. Qed.

Lemma learns_create_failed (name : string) (e : Exn) :
  learns name (create_record name (Failed e)) = None.
Proof. reflexivity. Qed.

Lemma learns_store_init (name n : string) (o : Outcome) :
  learns name {| call := Store_init n; outcome := o |} = None.
Proof. reflexivity. Qed.

(** The calls of one construction, by the outcome of the probe. *)
Lemma service_init_calls (collection_name : option string) (w : World) :
  let name := py_or truthy_str collection_name (Config.qdrant_collection_name settings) in
  let run := __init__ collection_name w in
  (* the probe is answered *)
  (exists o,
      calls (snd run) =
        calls w ++ [probe_record name Done; {| call := Store_init name; outcome := o |}]
      /\ (forall self w', run = (Return self, w') -> o = Done)
      /\ is_Some (collections (qdrant (snd run)) !! name)
      /\ faults (qdrant (snd run)) = tail (faults (qdrant w)))
  (* the probe is refused and the create call answered *)
  \/ (exists c r t o,
      calls (snd run) =
        calls w ++ [probe_record name (Failed (UnexpectedResponse c r t));
                    create_record name Done;
                    {| call := Store_init name; outcome := o |}]
      /\ (forall self w', run = (Return self, w') -> o = Done)
      /\ is_Some (collections (qdrant (snd run)) !! name)
      /\ faults (qdrant (snd run)) = tail (tail (faults (qdrant w))))
  (* the probe is refused and the create call fails *)
  \/ (exists c r t e,
      calls (snd run) =
        calls w ++ [probe_record name (Failed (UnexpectedResponse c r t));
                    create_record name (Failed e)]
      /\ fst run = Raise e)
  (* the probe fails otherwise *)
  \/ (exists e,
      (forall c r t, e <> UnexpectedResponse c r t)
      /\ calls (snd run) = calls w ++ [probe_record name (Failed e)]
      /\ fst run = Raise e).
Proof.
  intros name run.
  destruct (service_init_outcome collection_name w) as (self & w0 & Hname & Hcalls & Hsrv & Hrun).
  fold name in Hname, Hrun. fold run in Hrun.
  pose proof (ensure_collection_outcome self w0) as Hensure.
  cbn zeta in Hensure. rewrite Hname, Hcalls, Hsrv in Hensure.
  destruct (_ensure_collection self w0) as [res w1]. cbn [fst snd] in Hensure.
  destruct Hensure as [(Hres & Hc & Hex & Hf)
                      | [(c & r & t & o & Hc & Hres & Hex & Hf)
                        | (e & Hother & Hc & Hres)]].
  - subst res. destruct Hrun as (o & Hc' & Hq & Hfst).
    left. exists o. rewrite Hc', Hc, <- app_assoc, Hq. repeat split; auto.
    intros self' w' Heq. rewrite Heq in Hfst. destruct o; [reflexivity | discriminate].
  - right. destruct o as [| e].
    + left. subst res. destruct Hrun as (o & Hc' & Hq & Hfst).
      exists c, r, t, o. rewrite Hc', Hc, <- app_assoc, Hq. repeat split; auto.
      intros self' w' Heq. rewrite Heq in Hfst. destruct o; [reflexivity | discriminate].
    + right; left. subst res. destruct Hrun as (Hfst & Hc' & _).
      exists c, r, t, e. rewrite Hc', Hc. auto.
  - right; right; right. subst res. destruct Hrun as (Hfst & Hc' & _).
    exists e. rewrite Hc', Hc. auto.
Qed.

Lemma service_init_on_existing (collection_name : option string) (w : World) :
  let name := py_or truthy_str collection_name (Config.qdrant_collection_name settings) in
  faults (qdrant w) = [] ->
  is_Some (collections (qdrant w) !! name) ->
  exists o,
    calls (snd (__init__ collection_name w)) =
      calls w ++ [probe_record name Done; {| call := Store_init name; outcome := o |}].
Proof.
  intros name Hfaults Hex.
  destruct (service_init_outcome collection_name w) as (self & w0 & Hname & Hcalls & Hsrv & Hrun).
  fold name in Hname, Hrun.
  destruct (ensure_collection_existing self w0) as (Hres & Hc & _).
  { rewrite Hsrv. exact Hfaults. }
  { rewrite Hsrv, Hname. exact Hex. }
  destruct (_ensure_collection self w0) as [res w1]. cbn [fst snd] in *. subst res.
  destruct Hrun as (o & Hc' & _). exists o.
  rewrite Hc', Hc, Hname, Hcalls, <- app_assoc. reflexivity.
Qed.

(** C3: constructing the service first probes the collection under the
    effective name.  A probe refused with an [UnexpectedResponse] (the
    collection is reported absent) is followed by exactly one create call,
    for 1536-dimensional vectors under cosine distance; an answered probe
    (the collection exists) by none.  The calls take the service's view of
    the collection through the life cycle only, from [Unknown], and a
    construction that returns ends in [Exists].  On a server without
    faults, a second construction right after a first that returned finds
    the collection and issues no create call. *)
Theorem construction_probes_and_creates_only_if_absent
    (collection_name : option string) (w : World) :
  let name := py_or truthy_str collection_name (Config.qdrant_collection_name settings) in
  let run := __init__ collection_name w in
  exists probe rest final,
    calls (snd run) = calls w ++ probe_record name probe :: rest
    /\ (forall c r t, probe = Failed (UnexpectedResponse c r t) ->
          create_calls (probe_record name probe :: rest) =
            [Create_collection name 1536 COSINE])
    /\ (probe = Done -> create_calls (probe_record name probe :: rest) = [])
    /\ follows name Unknown (probe_record name probe :: rest) final
    /\ (forall self w', run = (Return self, w') -> final = Exists)
    /\ (faults (qdrant w) = [] ->
        forall self w', run = (Return self, w') ->
        exists rest',
          calls (snd (__init__ collection_name w')) =
            calls w' ++ probe_record name Done :: rest'
          /\ create_calls (probe_record name Done :: rest') = []).
Proof.
  intros name run.
  assert (Hsecond : forall self w',
    run = (Return self, w') ->
    faults (qdrant (snd run)) = [] ->
    is_Some (collections (qdrant (snd run)) !! name) ->
    exists rest',
      calls (snd (__init__ collection_name w')) = calls w' ++ probe_record name Done :: rest'
      /\ create_calls (probe_record name Done :: rest') = []).
  { intros self w' Heq Hf Hex. rewrite Heq in Hf, Hex. cbn [snd] in Hf, Hex.
    destruct (service_init_on_existing collection_name w' Hf Hex) as (o & Hc).
    eexists. split; [exact Hc | reflexivity]. }
  destruct (service_init_calls collection_name w)
    as [(o & Hc & Hret & Hex & Hf)
       | [(c & r & t & o & Hc & Hret & Hex & Hf)
         | [(c & r & t & e & Hc & Hres) | (e & Hother & Hc & Hres)]]];
    fold name in Hc; fold run in Hc.
  - exists Done, [{| call := Store_init name; outcome := o |}], Exists.
    split; [exact Hc|]. split; [intros; discriminate|]. split; [reflexivity|].
    split; [| split; [reflexivity|]].
    + eapply follows_step; [apply learns_probe_done | constructor |].
      apply follows_skip; [apply learns_store_init | constructor].
    + intros Hhealthy self w' Heq. apply (Hsecond self w' Heq); [| exact Hex].
      fold name run in Hf. rewrite Hf, Hhealthy. reflexivity.
  - exists (Failed (UnexpectedResponse c r t)),
      [create_record name Done; {| call := Store_init name; outcome := o |}], Exists.
    split; [exact Hc|]. split; [reflexivity|]. split; [intros; discriminate|].
    split; [| split; [reflexivity|]].
    + eapply follows_step; [apply learns_probe_refused | constructor |].
      eapply follows_step; [apply learns_create_done | constructor |].
      apply follows_skip; [apply learns_store_init | constructor].
    + intros Hhealthy self w' Heq. apply (Hsecond self w' Heq); [| exact Hex].
      fold name run in Hf. rewrite Hf, Hhealthy. reflexivity.
  - exists (Failed (UnexpectedResponse c r t)), [create_record name (Failed e)], Absent.
    fold run in Hres.
    split; [exact Hc|]. split; [reflexivity|]. split; [intros; discriminate|].
    split; [| split].
    + eapply follows_step; [apply learns_probe_refused | constructor |].
      apply follows_skip; [apply learns_create_failed | constructor].
    + intros self w' Heq. rewrite Heq in Hres. discriminate.
    + intros _ self w' Heq. rewrite Heq in Hres. discriminate.
  - exists (Failed e), [], Unknown.
    fold run in Hres.
    split; [exact Hc|].
    split; [intros c r t [= Heq]; destruct (Hother c r t Heq)|].
    split; [intros; discriminate|].
    split; [| split].
    + apply follows_skip; [apply learns_probe_failed, Hother | constructor].
    + intros self w' Heq. rewrite Heq in Hres. discriminate.
    + intros _ self w' Heq. rewrite Heq in Hres. discriminate.
Qed.

(** *** Identifiers *)

Lemma high_bit_false (a n : Z) :
  (0 <= a < 2 ^ 128)%Z -> (128 <= n)%Z -> Z.testbit a n = false.
Proof.
  intros Ha Hn. destruct (Z.eq_dec a 0%Z) as [-> | Hne].
  - apply Z.bits_0.
  - apply Z.bits_above_log2; [lia|].
    assert (Z.log2 a < 128)%Z; [| lia].
    apply Z.log2_lt_pow2; lia.
Qed.

Lemma below_pow2_128 (a : Z) :
  (0 <= a)%Z -> (forall n, (128 <= n)%Z -> Z.testbit a n = false) -> (a < 2 ^ 128)%Z.
Proof.
  intros Ha Hhigh.
  assert (Heq : Z.land a (Z.ones 128) = a).
  { apply Z.bits_inj'. intros n Hn. rewrite Z.land_spec.
    destruct (Z_lt_ge_dec n 128%Z) as [Hlt | Hge].
    - rewrite Z.ones_spec_low by lia. apply andb_true_r.
    - rewrite Z.ones_spec_high by lia. rewrite Hhigh by lia. reflexivity. }
  rewrite Z.land_ones in Heq by lia. rewrite <- Heq.
  apply Z.mod_pos_bound. lia.
Qed.

(** Stamping the version and variant bits keeps a UUID within 128 bits. *)
Lemma UUID_v4_range (int : Z) :
  (0 <= int < 2 ^ 128)%Z -> (0 <= UUID_v4 int < 2 ^ 128)%Z.
Proof.
  intros Hint. unfold UUID_v4.
  assert (Hnonneg : (0 <= Z.lor (Z.land (Z.lor (Z.land int (Z.lnot (Z.shiftl 49152 48)))
                                    (Z.shiftl 32768 48))
                             (Z.lnot (Z.shiftl 61440 64))) (Z.shiftl 4 76))%Z).
  { apply Z.lor_nonneg. split; [| vm_compute; discriminate].
    apply Z.land_nonneg. left.
    apply Z.lor_nonneg. split; [| vm_compute; discriminate].
    apply Z.land_nonneg. left. lia. }
  split; [exact Hnonneg|].
  apply below_pow2_128; [exact Hnonneg|].
  intros n Hn.
  rewrite Z.lor_spec, Z.land_spec, Z.lor_spec, Z.land_spec.
  rewrite (high_bit_false int n Hint Hn).
  rewrite (high_bit_false (Z.shiftl 32768 48)%Z n);
    [| split; [vm_compute; discriminate | vm_compute; reflexivity] | exact Hn].
  rewrite (high_bit_false (Z.shiftl 4 76)%Z n);
    [| split; [vm_compute; discriminate | vm_compute; reflexivity] | exact Hn].
  reflexivity.
Qed.

Lemma uuid_of_draw_range (n : nat) : (0 <= uuid_of_draw n < 2 ^ 128)%Z.
Proof. unfold uuid_of_draw. apply UUID_v4_range, Z.mod_pos_bound. lia. Qed.

Lemma hex_digit_inj (a b : Z) :
  (0 <= a < 16)%Z -> (0 <= b < 16)%Z -> hex_digit a = hex_digit b -> a = b.
Proof.
  intros Ha Hb. unfold hex_digit.
  assert (Hi : (Z.to_nat a < 16)%nat) by lia.
  assert (Hj : (Z.to_nat b < 16)%nat) by lia.
  intros Heq. enough (Z.to_nat a = Z.to_nat b) by lia.
  revert Hi Hj Heq. generalize (Z.to_nat a) (Z.to_nat b). clear.
  intros i j Hi Hj Heq.
  do 16 (destruct i as [| i];
         [ do 16 (destruct j as [| j]; [first [reflexivity | discriminate Heq] |]); lia |]).
  lia.
Qed.

Lemma length_hex_fixed (w : nat) (n : Z) : length (hex_fixed w n) = w.
Proof.
  revert n. induction w as [| w IH]; intros n; cbn [hex_fixed]; [reflexivity|].
  rewrite length_app, IH. cbn. lia.
Qed.

Lemma hex_fixed_inj (w : nat) (a b : Z) :
  (0 <= a < 16 ^ Z.of_nat w)%Z -> (0 <= b < 16 ^ Z.of_nat w)%Z ->
  hex_fixed w a = hex_fixed w b -> a = b.
Proof.
  revert a b. induction w as [| w IH]; intros a b Ha Hb Heq.
  - cbn in Ha, Hb. lia.
  - rewrite Nat2Z.inj_succ, Z.pow_succ_r in Ha, Hb by lia.
    cbn [hex_fixed] in Heq. apply app_inj_tail in Heq as [Hhigh Hlow].
    assert (Hdiv : (a / 16 = b / 16)%Z).
    { apply IH; [| | exact Hhigh];
        (split; [apply Z.div_pos; lia | apply Z.div_lt_upper_bound; lia]). }
    assert (Hmod : (a mod 16 = b mod 16)%Z).
    { apply hex_digit_inj; [| | exact Hlow]; apply Z.mod_pos_bound; lia. }
    rewrite (Z.div_mod a 16%Z), (Z.div_mod b 16%Z) by lia. congruence.
Qed.

Lemma dashed_reassemble (x : list ascii) :
  x = take 8 x ++ take 4 (drop 8 x) ++ take 4 (drop 12 x) ++ take 4 (drop 16 x)
        ++ drop 20 x.
Proof.
  rewrite <- (take_drop 8 x) at 1. f_equal.
  rewrite <- (take_drop 4 (drop 8 x)) at 1. f_equal. rewrite drop_drop. cbn [Nat.add].
  rewrite <- (take_drop 4 (drop 12 x)) at 1. f_equal. rewrite drop_drop. cbn [Nat.add].
  rewrite <- (take_drop 4 (drop 16 x)) at 1. f_equal. rewrite drop_drop. reflexivity.
Qed.

(** The text of a UUID determines it. *)
Lemma UUID_str_inj (a b : Z) :
  (0 <= a < 2 ^ 128)%Z -> (0 <= b < 2 ^ 128)%Z -> UUID_str a = UUID_str b -> a = b.
Proof.
  intros Ha Hb Heq. unfold UUID_str in Heq.
  apply (f_equal list_ascii_of_string) in Heq.
  rewrite !list_ascii_of_string_of_list_ascii in Heq.
  remember (hex_fixed 32 a) as x eqn:Ex. remember (hex_fixed 32 b) as y eqn:Ey.
  assert (Hx : length x = 32%nat) by (subst x; apply length_hex_fixed).
  assert (Hy : length y = 32%nat) by (subst y; apply length_hex_fixed).
  apply app_inj_1 in Heq as [H1 Heq]; [| rewrite !length_take; lia].
  injection Heq as Heq.
  apply app_inj_1 in Heq as [H2 Heq]; [| rewrite !length_take, !length_drop; lia].
  injection Heq as Heq.
  apply app_inj_1 in Heq as [H3 Heq]; [| rewrite !length_take, !length_drop; lia].
  injection Heq as Heq.
  apply app_inj_1 in Heq as [H4 Heq]; [| rewrite !length_take, !length_drop; lia].
  injection Heq as H5.
  assert (Hxy : x = y).
  { rewrite (dashed_reassemble x), (dashed_reassemble y). congruence. }
  assert (Hpow : (2 ^ 128 = 16 ^ Z.of_nat 32)%Z) by (vm_compute; reflexivity).
  rewrite Hpow in Ha, Hb.
  apply (hex_fixed_inj 32); [exact Ha | exact Hb | congruence].
Qed.



(** C4 (amended): [get_collection_info] turns a lookup refused with an
    [UnexpectedResponse] into a payload: status ["Collection does not
    exist"], zero points, the text of the refusal under [error], zero
    indexed vectors, no creation date, and no [name] entry.  A lookup that
    fails in any other way raises its exception.  An answered lookup gives
    the collection name, the points count and the status. *)
Theorem get_collection_info_by_lookup (self : VectorStoreService) (w : World) :
  match fst (client_get_collection (collection_name self) w) with
  | Return info =>
      exists payload,
        fst (get_collection_info self w) = Return payload
        /\ payload !! "name" = Some (VStr (collection_name self))
        /\ payload !! "points_count" = Some (VInt (points_count info))
        /\ payload !! "status" = Some (VStatus (status info))
  | Raise (UnexpectedResponse c r t) =>
      exists payload,
        fst (get_collection_info self w) = Return payload
        /\ payload !! "status" = Some (VStr "Collection does not exist")
        /\ payload !! "points_count" = Some (VInt 0)
        /\ payload !! "error" = Some (VStr (exn_str (UnexpectedResponse c r t)))
        /\ payload !! "indexed_vectors_count" = Some (VInt 0)
        /\ payload !! "created_at" = Some VNone
        /\ payload !! "name" = None
  | Raise e => fst (get_collection_info self w) = Raise e
  end.
Proof.
  unfold get_collection_info. run.
  destruct (client_get_collection (collection_name self) w) as [[info | e] w1];
    cbn [fst snd]; [| destruct e; cbn [fst]; try reflexivity];
    eexists; (split; [reflexivity|]); repeat split;
    by simplify_map_eq.
Qed.

(** C9: in [search], [search_with_scores] and [get_retriever] a [k] that
    is [None] or [0] gives way to [settings.retrieval_k]: the store is asked
    for that many neighbours and its answer is the result. *)
Theorem falsy_k_is_retrieval_k
    (self : VectorStoreService) (query : string) (k : option Z) (w : World) :
  k = None \/ k = Some 0%Z ->
  let default_k := Config.retrieval_k settings in
  (exists o,
      calls (snd (search self query k w)) =
        calls w ++ [{| call := Store_similarity_search query default_k; outcome := o |}])
  /\ fst (search self query k w) =
     match QdrantVectorStore_similarity_search
             (qdrant w) (collection_name self) query default_k with
     | inl failure => Raise (LibraryError failure)
     | inr results => Return results
     end
  /\ (exists o,
      calls (snd (search_with_scores self query k w)) =
        calls w ++ [{| call := Store_similarity_search_with_score query default_k;
                       outcome := o |}])
  /\ fst (search_with_scores self query k w) =
     match QdrantVectorStore_similarity_search_with_score
             (qdrant w) (collection_name self) query default_k with
     | inl failure => Raise (LibraryError failure)
     | inr results => Return results
     end
  /\ exists retriever,
      fst (get_retriever self k w) = Return retriever
      /\ search_type retriever = "similarity"
      /\ search_kwargs retriever !! "k" = Some (VInt default_k).
Proof.
  intros Hfalsy default_k.
  assert (Hk : py_or truthy_int k (Config.retrieval_k settings) = default_k).
  { destruct Hfalsy as [-> | ->]; reflexivity. }
  unfold search, search_with_scores, get_retriever. rewrite Hk. run.
  repeat split.
  - destruct (QdrantVectorStore_similarity_search _ _ _ _); run; eauto.
  - destruct (QdrantVectorStore_similarity_search _ _ _ _); reflexivity.
  - destruct (QdrantVectorStore_similarity_search_with_score _ _ _ _); run; eauto.
  - destruct (QdrantVectorStore_similarity_search_with_score _ _ _ _); reflexivity.
  - eexists. split; [reflexivity|]. split; [reflexivity|]. by simplify_map_eq.
Qed.

End Vector_store_properties.

(** ** Constructor defaults *)

Section Constructor_defaults.
Context `{External}.

Lemma py_or_falsy_int (x : option Z) (y : Z) :
  x = None \/ x = Some 0%Z -> py_or truthy_int x y = y.
Proof. intros [-> | ->]; reflexivity. Qed.

Lemma py_or_zero (x : option Z) (y : Z) :
  py_or truthy_int x y = 0%Z -> y = 0%Z.
Proof.
  destruct x as [z |]; cbn; [| auto].
  unfold truthy_int. destruct (Z.eqb_spec z 0); cbn; congruence.
Qed.

Lemma py_or_falsy_str (x : option string) (y : string) :
  x = None \/ x = Some "" -> py_or truthy_str x y = y.
Proof. intros [-> | ->]; reflexivity. Qed.

(** C8: for the constructors a falsy argument is a missing argument.
    [DocumentProcessor(chunk_size, chunk_overlap)] behaves with [0] as with
    [None], and what it builds carries the configured default in place of a
    falsy argument, so that its overlap is [0] only when the configured
    overlap is.  [VectorStoreService(collection_name)] behaves with [""] as
    with [None] and works on the configured collection name. *)
Theorem falsy_constructor_arguments_are_defaults :
  (forall chunk_overlap w,
      Document_processor.__init__ (Some 0%Z) chunk_overlap w =
      Document_processor.__init__ None chunk_overlap w)
  /\ (forall chunk_size w,
      Document_processor.__init__ chunk_size (Some 0%Z) w =
      Document_processor.__init__ chunk_size None w)
  /\ (forall chunk_size chunk_overlap w self w',
      Document_processor.__init__ chunk_size chunk_overlap w = (Return self, w') ->
      (chunk_size = None \/ chunk_size = Some 0%Z ->
         Document_processor.chunk_size self = Config.chunk_size settings)
      /\ (chunk_overlap = None \/ chunk_overlap = Some 0%Z ->
         Document_processor.chunk_overlap self = Config.chunk_overlap settings)
      /\ (Document_processor.chunk_overlap self = 0%Z ->
         Config.chunk_overlap settings = 0%Z))
  /\ (forall w, Vector_store.__init__ (Some "") w = Vector_store.__init__ None w)
  /\ (forall collection_name w self w',
      collection_name = None \/ collection_name = Some "" ->
      Vector_store.__init__ collection_name w = (Return self, w') ->
      Vector_store.collection_name self = Config.qdrant_collection_name settings).
Proof.
  split; [reflexivity|]. split; [reflexivity|]. split; [| split; [reflexivity|]].
  - intros chunk_size chunk_overlap w self w'.
    unfold Document_processor.__init__, Document_processor.RecursiveCharacterTextSplitter.
    set (size := py_or truthy_int chunk_size (Config.chunk_size settings)).
    set (overlap := py_or truthy_int chunk_overlap (Config.chunk_overlap settings)).
    destruct (size <=? 0)%Z; [discriminate|].
    destruct (overlap <? 0)%Z; [discriminate|].
    destruct (overlap >? size)%Z; [discriminate|].
    run. intros [= <- _]. cbn. repeat split.
    + apply py_or_falsy_int.
    + apply py_or_falsy_int.
    + apply py_or_zero.
  - intros collection_name w self w' Hfalsy Hrun.
    destruct (service_init_outcome collection_name w)
      as (self0 & w0 & Hname & _ & _ & Hshape).
    rewrite Hrun in Hshape. cbn [fst snd] in Hshape.
    rewrite (py_or_falsy_str _ _ Hfalsy) in Hname.
    destruct (Vector_store._ensure_collection self0 w0) as [[[] | e] w1].
    + destruct Hshape as (o & _ & _ & Hres). destruct o; [| discriminate].
      injection Hres as ->. exact Hname.
    + destruct Hshape as (Hres & _). discriminate.
Qed.

End Constructor_defaults.

(** ** embeddings.py and vector_store.py in the demo environment *)

Section Services_runs.
#[local] Existing Instance Demo.external.

(** The failing run of C1: the client answers with a vector, the method
    raises. *)
Example embed_query_hello :
  OpenAIEmbeddings_embed_query "hello" = inr [0.25%float; 0.5%float]
  /\ fst (Embeddings.embed_query Demo.embedding_service "hello" Demo.world) =
     Raise (NameError "embedding")
  /\ fst (Embeddings.embed_documents Demo.embedding_service ["a"; "b"] Demo.world) =
     Raise (NameError "embeddings").
Proof. repeat split. Qed.


Lemma construction_probes_and_creates_only_if_absent_witness :
  exists self w' rest',
    Vector_store.__init__ None Demo.world = (Return self, w')
    /\ create_calls (calls w') = [Create_collection "rag_qa_collection" 1536 COSINE]
    /\ calls (snd (Vector_store.__init__ None w')) =
       calls w' ++ probe_record "rag_qa_collection" Done :: rest'
    /\ create_calls (probe_record "rag_qa_collection" Done :: rest') = [].
Proof.
  destruct (construction_probes_and_creates_only_if_absent None Demo.world)
    as (probe & rest & final & _ & _ & _ & _ & _ & Hsecond).
  assert (Hrun : exists self w', Vector_store.__init__ None Demo.world = (Return self, w')
                                 /\ create_calls (calls w') =
                                    [Create_collection "rag_qa_collection" 1536 COSINE]).
  { eexists _, _. vm_compute. split; reflexivity. }
  destruct Hrun as (self & w' & Hrun & Hcreated).
  destruct (Hsecond eq_refl self w' Hrun) as (rest' & Hcalls & Hnone).
  exists self, w', rest'. auto.
Defined.

(** C4, as stated, fails on a collection that was never created, whose
    degraded payload has no [name] entry, and on a server that cannot be
    reached, where the lookup failure is raised. *)
Lemma degraded_payload_counterexample :
  (exists payload,
      fst (Vector_store.get_collection_info (Demo.service "never_created") Demo.world) =
        Return payload
      /\ payload !! "status" = Some (VStr "Collection does not exist")
      /\ payload !! "name" = None)
  /\ fst (Vector_store.get_collection_info (Demo.service "docs")
            (Demo.world_with_fault Unreachable)) =
     Raise (ResponseHandlingException "[Errno 111] Connection refused").
Proof.
  split.
  - eexists. split; [vm_compute; reflexivity|]. split; vm_compute; reflexivity.
  - vm_compute. reflexivity.
Qed.

Lemma falsy_k_is_retrieval_k_witness :
  calls (snd (Vector_store.search (Demo.service "docs") "what is RAG?" (Some 0%Z) Demo.world)) =
    [{| call := Store_similarity_search "what is RAG?" 4; outcome := Done |}]
  /\ exists retriever,
      fst (Vector_store.get_retriever (Demo.service "docs") (Some 0%Z) Demo.world) =
        Return retriever
      /\ Vector_store.search_kwargs retriever !! "k" = Some (VInt 4).
Proof.
  destruct (falsy_k_is_retrieval_k (Demo.service "docs") "what is RAG?" (Some 0%Z)
              Demo.world (or_intror eq_refl))
    as ((o & Hcalls) & _ & _ & _ & (retriever & Hres & _ & Hk)).
  split.
  - rewrite Hcalls. vm_compute in Hcalls. injection Hcalls as <-. reflexivity.
  - exists retriever. split; [exact Hres | exact Hk].
Defined.

Lemma falsy_constructor_arguments_are_defaults_witness :
  (exists self w',
      Document_processor.__init__ (Some 0%Z) (Some 0%Z) Demo.world = (Return self, w')
      /\ Document_processor.chunk_size self = 1000%Z
      /\ Document_processor.chunk_overlap self = 200%Z)
  /\ (exists self w',
      Vector_store.__init__ (Some "") Demo.world = (Return self, w')
      /\ Vector_store.collection_name self = "rag_qa_collection").
Proof.
  destruct falsy_constructor_arguments_are_defaults as (_ & _ & Hsizes & _ & Hname).
  split.
  - assert (Hrun : exists self w',
               Document_processor.__init__ (Some 0%Z) (Some 0%Z) Demo.world = (Return self, w')).
    { eexists _, _. vm_compute. reflexivity. }
    destruct Hrun as (self & w' & Hrun).
    destruct (Hsizes _ _ _ _ _ Hrun) as (Hsize & Hoverlap & _).
    exists self, w'. split; [exact Hrun|]. split.
    + exact (Hsize (or_intror eq_refl)).
    + exact (Hoverlap (or_intror eq_refl)).
  - assert (Hrun : exists self w',
               Vector_store.__init__ (Some "") Demo.world = (Return self, w')).
    { eexists _, _. vm_compute. reflexivity. }
    destruct Hrun as (self & w' & Hrun).
    exists self, w'. split; [exact Hrun|].
    exact (Hname _ _ _ _ (or_intror eq_refl) Hrun).
Defined.

End Services_runs.

(** * Further properties *)

(** ** The cached clients *)

Section Cached_clients.
Context `{External}.

(** X1: [get_embeddings] always gives the client made from the settings and
    touches neither the server nor the record of calls; its body runs once:
    the first call logs the two initialisation records and fills the cache,
    and a call made after any call changes nothing at all. *)
Theorem get_embeddings_runs_once (w : World) :
  let client := {| Embeddings.model := Config.embedding_model settings;
                   Embeddings.openai_api_key := Config.openai_api_key settings |} in
  let w' := snd (Embeddings.get_embeddings w) in
  fst (Embeddings.get_embeddings w) = Return client
  /\ Embeddings.get_embeddings w' = (Return client, w')
  /\ log_records w' =
     log_records w ++
       (if embeddings_cached w then []
        else [{| levelname := INFO;
                 msg := "Initializing OpenAI Embeddings with model: %s";
                 args := [VStr (Config.embedding_model settings)] |};
              {| levelname := INFO;
                 msg := "OpenAI Embeddings initialized successfully.";
                 args := [] |}])
  /\ calls w' = calls w
  /\ qdrant w' = qdrant w.
Proof.
  unfold Embeddings.get_embeddings. run.
  destruct (embeddings_cached w) eqn:Hcached; run.
  - rewrite Hcached, app_nil_r. auto.
  - rewrite <- app_assoc. auto.
Qed.



End Cached_clients.

(** ** The service on its collection *)

Section Service_on_its_collection.
Context `{External}.
Import Vector_store.

(** X4: [health_check] never raises.  It answers [true] when the request
    for the collections goes through and [false] when it meets a fault of
    either kind, and it leaves the collections as they are. *)
Theorem health_check_never_raises (self : VectorStoreService) (w : World) :
  fst (health_check self w) =
    Return (match head (faults (qdrant w)) with
            | Some (Some _) => false
            | _ => true
            end)
  /\ collections (qdrant (snd (health_check self w))) = collections (qdrant w).
Proof.
  unfold health_check, client_get_collections, request_unrecorded. run.
  destruct (head (faults (qdrant w))) as [[f |] |]; run; auto.
Qed.

(** X5: [delete_collection] lets a fault of the request through to its
    caller, with every collection still there; when the request goes through
    the service's collection is gone and every other collection is as it
    was. *)
Theorem delete_collection_outcome (self : VectorStoreService) (w : World) :
  match head (faults (qdrant w)) with
  | Some (Some f) =>
      fst (delete_collection self w) = Raise (fault_exn f)
      /\ collections (qdrant (snd (delete_collection self w))) = collections (qdrant w)
  | _ =>
      fst (delete_collection self w) = Return tt
      /\ collections (qdrant (snd (delete_collection self w))) !! collection_name self = None
      /\ forall other,
          other <> collection_name self ->
          collections (qdrant (snd (delete_collection self w))) !! other =
          collections (qdrant w) !! other
  end.
Proof.
  unfold delete_collection, client_delete_collection, request_unrecorded. run.
  cbn [collections faults].
  destruct (head (faults (qdrant w))) as [[f |] |]; run; cbn [collections].
  - auto.
  - split; [reflexivity|]. split; [apply lookup_delete_eq|].
    intros other Hne. apply lookup_delete_ne. congruence.
  - split; [reflexivity|]. split; [apply lookup_delete_eq|].
    intros other Hne. apply lookup_delete_ne. congruence.
Qed.

(** X6: [get_collection_info] only reads: whatever the lookup does, it is
    the single call made, and the collections are as they were. *)
Theorem get_collection_info_only_reads (self : VectorStoreService) (w : World) :
  collections (qdrant (snd (get_collection_info self w))) = collections (qdrant w)
  /\ exists o,
      calls (snd (get_collection_info self w)) =
      calls w ++ [probe_record (collection_name self) o].
Proof.
  unfold get_collection_info, client_get_collection, request, probe_record. run.
  cbn [collections faults].
  destruct (head (faults (qdrant w))) as [[[| c r t] |] |]; cbn [fault_exn];
    try destruct (collections (qdrant w) !! collection_name self);
    run; cbn [collections]; eauto.
Qed.

(** X7: a [k] that is given and not zero is passed on as it is, negative or
    not: the store is asked for [k] neighbours, its answer or its failure is
    the method's, and the retriever is bound to [k]. *)
Theorem given_k_is_passed_on
    (self : VectorStoreService) (query : string) (k : Z) (w : World) :
  k <> 0%Z ->
  (exists o,
      calls (snd (search self query (Some k) w)) =
        calls w ++ [{| call := Store_similarity_search query k; outcome := o |}])
  /\ fst (search self query (Some k) w) =
     match QdrantVectorStore_similarity_search (qdrant w) (collection_name self) query k with
     | inl failure => Raise (LibraryError failure)
     | inr results => Return results
     end
  /\ (exists o,
      calls (snd (search_with_scores self query (Some k) w)) =
        calls w ++ [{| call := Store_similarity_search_with_score query k; outcome := o |}])
  /\ fst (search_with_scores self query (Some k) w) =
     match QdrantVectorStore_similarity_search_with_score
             (qdrant w) (collection_name self) query k with
     | inl failure => Raise (LibraryError failure)
     | inr results => Return results
     end
  /\ exists retriever,
      fst (get_retriever self (Some k) w) = Return retriever
      /\ search_kwargs retriever !! "k" = Some (VInt k)
      /\ calls (snd (get_retriever self (Some k) w)) = calls w.
Proof.
  intros Hk.
  assert (Hor : py_or truthy_int (Some k) (Config.retrieval_k settings) = k).
  { cbn. unfold truthy_int. destruct (Z.eqb_spec k 0); [contradiction | reflexivity]. }
  unfold search, search_with_scores, get_retriever. rewrite Hor. run.
  repeat split.
  - destruct (QdrantVectorStore_similarity_search _ _ _ _); run; eauto.
  - destruct (QdrantVectorStore_similarity_search _ _ _ _); reflexivity.
  - destruct (QdrantVectorStore_similarity_search_with_score _ _ _ _); run; eauto.
  - destruct (QdrantVectorStore_similarity_search_with_score _ _ _ _); reflexivity.
  - eexists. split; [reflexivity|]. split; [by simplify_map_eq | reflexivity].
Qed.

(** [__init__], step by step: [_ensure_collection] on the effective name
    from a world with the same server and calls, then the construction of
    the langchain store, whose answer decides. *)
Lemma service_init_steps (collection_name : option string) (w : World) :
  let name := py_or truthy_str collection_name (Config.qdrant_collection_name settings) in
  let run := __init__ collection_name w in
  exists self w0,
    Vector_store.collection_name self = name
    /\ calls w0 = calls w
    /\ qdrant w0 = qdrant w
    /\ match _ensure_collection self w0 with
       | (Raise e, w1) =>
           fst run = Raise e /\ calls (snd run) = calls w1 /\ qdrant (snd run) = qdrant w1
       | (Return _, w1) =>
           fst run =
             match QdrantVectorStore_init (qdrant w1) name with
             | inl failure => Raise (LibraryError failure)
             | inr _ => Return self
             end
           /\ qdrant (snd run) = qdrant w1
           /\ exists o,
               calls (snd run) = calls w1 ++ [{| call := Store_init name; outcome := o |}]
       end.
Proof.
  intros name run. subst run. unfold __init__. fold name.
  unfold get_qdrant_client, Embeddings.get_embeddings, QdrantVectorStore. run.
  destruct (qdrant_client_cached w); run.
  all: destruct (embeddings_cached w); run.
  all: match goal with
       | |- context [_ensure_collection ?s ?w0] =>
           exists s, w0; repeat (split; [reflexivity|]);
           destruct (_ensure_collection s w0) as [[[] | e] w1]
       end.
  all: cbn [Vector_store.collection_name]; run; auto.
  all: destruct (QdrantVectorStore_init (qdrant w1) name) as [failure | []]; run.
  all: repeat split; eauto.
Qed.

(** On a server without the collection and without fault in line, the probe
    is refused with 404 and the collection is created. *)
Lemma ensure_collection_absent (self : VectorStoreService) (w : World) :
  faults (qdrant w) = [] ->
  collections (qdrant w) !! collection_name self = None ->
  fst (_ensure_collection self w) = Return tt
  /\ calls (snd (_ensure_collection self w)) =
     calls w ++
       [probe_record (collection_name self)
          (Failed (UnexpectedResponse 404 "Not Found"
                     ("Not found: Collection `" +:+ collection_name self
                      +:+ "` doesn't exist!")));
        create_record (collection_name self) Done]
  /\ qdrant (snd (_ensure_collection self w)) =
     {| faults := [];
        collections := <[collection_name self := fresh_collection]> (collections (qdrant w)) |}.
Proof.
  intros Hfaults Hlookup. unfold _ensure_collection.
  unfold client_get_collection, client_create_collection, request.
  unfold probe_record, create_record, fresh_collection. run.
  rewrite Hfaults. cbn [head tail collections faults]. rewrite Hlookup. run.
  cbn [head tail collections faults]. rewrite Hlookup. run.
  rewrite <- app_assoc. auto.
Qed.

(** What [delete_collection] leaves on a server without fault in line. *)
Lemma delete_collection_healthy (self : VectorStoreService) (w : World) :
  faults (qdrant w) = [] ->
  fst (delete_collection self w) = Return tt
  /\ calls (snd (delete_collection self w)) = calls w
  /\ qdrant (snd (delete_collection self w)) =
     {| faults := [];
        collections := delete (collection_name self) (collections (qdrant w)) |}.
Proof.
  intros Hfaults.
  unfold delete_collection, client_delete_collection, request_unrecorded. run.
  rewrite Hfaults. cbn [head tail collections faults]. run. auto.
Qed.

(** X8: after a [delete_collection] that went through, [get_collection_info]
    reports the collection as not existing, with zero points. *)
Theorem deleted_collection_is_reported_missing (self : VectorStoreService) (w : World) :
  faults (qdrant w) = [] ->
  exists payload,
    fst (get_collection_info self (snd (delete_collection self w))) = Return payload
    /\ payload !! "status" = Some (VStr "Collection does not exist")
    /\ payload !! "points_count" = Some (VInt 0).
Proof.
  intros Hfaults.
  destruct (delete_collection_healthy self w Hfaults) as (_ & _ & Hsrv).
  unfold get_collection_info, client_get_collection, request. run.
  rewrite Hsrv. cbn [head tail collections faults]. rewrite lookup_delete_eq. run.
  eexists. split; [reflexivity|]. split; by simplify_map_eq.
Qed.

(** X9: a construction that follows a [delete_collection] of the same
    collection provisions it again: the probe is refused with 404 and one
    create call for 1536-dimensional vectors under cosine distance follows. *)
Theorem construction_after_delete_creates_again
    (self : VectorStoreService) (collection_name : option string) (w : World) :
  faults (qdrant w) = [] ->
  Vector_store.collection_name self =
    py_or truthy_str collection_name (Config.qdrant_collection_name settings) ->
  let name := Vector_store.collection_name self in
  let run := __init__ collection_name (snd (delete_collection self w)) in
  (exists o,
      calls (snd run) =
        calls w ++
          [probe_record name
             (Failed (UnexpectedResponse 404 "Not Found"
                        ("Not found: Collection `" +:+ name +:+ "` doesn't exist!")));
           create_record name Done;
           {| call := Store_init name; outcome := o |}])
  /\ collections (qdrant (snd run)) !! name = Some fresh_collection.
Proof.
  intros Hfaults Hname name run.
  destruct (delete_collection_healthy self w Hfaults) as (_ & Hcalls & Hsrv).
  destruct (service_init_steps collection_name (snd (delete_collection self w)))
    as (self0 & w0 & Hname0 & Hcalls0 & Hsrv0 & Hshape).
  fold run in Hshape. rewrite <- Hname in Hname0. fold name in Hname0.
  destruct (ensure_collection_absent self0 w0) as (Hres & Hc & Hq).
  { rewrite Hsrv0, Hsrv. reflexivity. }
  { rewrite Hsrv0, Hsrv, Hname0. cbn [collections]. apply lookup_delete_eq. }
  destruct (_ensure_collection self0 w0) as [res w1]. cbn [fst snd] in Hres, Hc, Hq.
  subst res. destruct Hshape as (_ & Hq' & o & Hc').
  rewrite <- Hname, Hname0 in *. fold name in Hc, Hc', Hq.
  split.
  - exists o. rewrite Hc', Hc, Hcalls0, Hcalls, <- app_assoc. reflexivity.
  - rewrite Hq', Hq. cbn [collections]. apply lookup_insert_eq.
Qed.

(** X10: a construction that finds its collection leaves the server as it
    is, whatever the vector size and the distance of that collection: they
    are not compared with 1536 and cosine.  The construction then returns
    or fails as the construction of the langchain store does. *)
Theorem construction_keeps_an_existing_collection
    (collection_name : option string) (w : World) (info : Collection) :
  let name := py_or truthy_str collection_name (Config.qdrant_collection_name settings) in
  faults (qdrant w) = [] ->
  collections (qdrant w) !! name = Some info ->
  qdrant (snd (__init__ collection_name w)) = qdrant w
  /\ exists self,
      Vector_store.collection_name self = name
      /\ fst (__init__ collection_name w) =
         match QdrantVectorStore_init (qdrant w) name with
         | inl failure => Raise (LibraryError failure)
         | inr _ => Return self
         end.
Proof.
  intros name Hfaults Hlookup.
  destruct (service_init_steps collection_name w)
    as (self0 & w0 & Hname0 & Hcalls0 & Hsrv0 & Hshape).
  fold name in Hname0, Hshape.
  destruct (ensure_collection_existing self0 w0) as (Hres & _ & Hq).
  { rewrite Hsrv0. exact Hfaults. }
  { rewrite Hsrv0, Hname0, Hlookup. eauto. }
  destruct (_ensure_collection self0 w0) as [res w1]. cbn [fst snd] in Hres, Hq.
  subst res. destruct Hshape as (Hfst & Hq' & _).
  rewrite Hq, Hsrv0 in Hq', Hfst. split; [exact Hq'|].
  exists self0. split; [exact Hname0 | exact Hfst].
Qed.

(** X11: when the probe is refused with an error status of any kind while
    the collection exists, the construction still takes it for absent: it
    asks for its creation, the server answers 409, and that refusal leaves
    the constructor.  The collection is as it was. *)
Theorem refused_probe_of_an_existing_collection
    (collection_name : option string) (w : World) (info : Collection)
    (c : Z) (r t : string) :
  let name := py_or truthy_str collection_name (Config.qdrant_collection_name settings) in
  let conflict :=
    UnexpectedResponse 409 "Conflict"
      ("Wrong input: Collection `" +:+ name +:+ "` already exists!") in
  faults (qdrant w) = [Some (HttpError c r t)] ->
  collections (qdrant w) !! name = Some info ->
  fst (__init__ collection_name w) = Raise conflict
  /\ calls (snd (__init__ collection_name w)) =
     calls w ++ [probe_record name (Failed (UnexpectedResponse c r t));
                 create_record name (Failed conflict)]
  /\ collections (qdrant (snd (__init__ collection_name w))) = collections (qdrant w).
Proof.
  intros name conflict Hfaults Hlookup.
  destruct (service_init_steps collection_name w)
    as (self0 & w0 & Hname0 & Hcalls0 & Hsrv0 & Hshape).
  fold name in Hname0, Hshape.
  assert (Hensure :
    fst (_ensure_collection self0 w0) = Raise conflict
    /\ calls (snd (_ensure_collection self0 w0)) =
       calls w0 ++ [probe_record name (Failed (UnexpectedResponse c r t));
                    create_record name (Failed conflict)]
    /\ collections (qdrant (snd (_ensure_collection self0 w0))) = collections (qdrant w0)).
  { unfold _ensure_collection, client_get_collection, client_create_collection, request.
    unfold probe_record, create_record, conflict. rewrite Hname0. run.
    rewrite Hsrv0, Hfaults. cbn [head tail collections faults fault_exn]. run.
    cbn [head tail collections faults]. rewrite Hlookup. run.
    rewrite <- app_assoc. auto. }
  destruct (_ensure_collection self0 w0) as [res w1]. cbn [fst snd] in Hensure.
  destruct Hensure as (-> & Hc & Hq). destruct Hshape as (Hfst & Hc' & Hq').
  rewrite Hfst, Hc', Hc, Hcalls0, Hq', Hq, Hsrv0. auto.
Qed.

(** X12: nothing is undone when the construction fails after the creation:
    if the langchain store refuses the freshly created collection, the
    constructor raises and the collection stays on the server. *)
Theorem failed_construction_leaves_the_collection
    (collection_name : option string) (w : World) (failure : string) :
  let name := py_or truthy_str collection_name (Config.qdrant_collection_name settings) in
  faults (qdrant w) = [] ->
  collections (qdrant w) !! name = None ->
  QdrantVectorStore_init
    {| faults := []; collections := <[name := fresh_collection]> (collections (qdrant w)) |}
    name = inl failure ->
  fst (__init__ collection_name w) = Raise (LibraryError failure)
  /\ collections (qdrant (snd (__init__ collection_name w))) !! name = Some fresh_collection.
Proof.
  intros name Hfaults Hlookup Hstore.
  destruct (service_init_steps collection_name w)
    as (self0 & w0 & Hname0 & Hcalls0 & Hsrv0 & Hshape).
  fold name in Hname0, Hshape.
  destruct (ensure_collection_absent self0 w0) as (Hres & _ & Hq).
  { rewrite Hsrv0. exact Hfaults. }
  { rewrite Hsrv0, Hname0. exact Hlookup. }
  destruct (_ensure_collection self0 w0) as [res w1]. cbn [fst snd] in Hres, Hq.
  subst res. destruct Hshape as (Hfst & Hq' & _).
  rewrite Hname0, Hsrv0 in Hq. rewrite Hq, Hstore in Hfst.
  split; [exact Hfst|]. rewrite Hq', Hq. cbn [collections]. apply lookup_insert_eq.
Qed.

End Service_on_its_collection.

(** ** Insertions *)

Section Insertions.
Context `{External}.
Import Vector_store.

(** The identifiers minted for a list, and where the entropy pool stands
    afterwards. *)
Lemma mint_ids_position {A} (documents : list A) (w : World) :
  exists w',
    for_each (fun _ => u <- uuid4 ;; ret (UUID_str u)) documents w =
      (Return (map (fun i => UUID_str (uuid_of_draw i))
                 (seq (urandom_pos w) (length documents))), w')
    /\ urandom_pos w' = (urandom_pos w + length documents)%nat
    /\ calls w' = calls w
    /\ qdrant w' = qdrant w.
Proof.
  set (mint := fun _ : A => u <- uuid4 ;; ret (UUID_str u)).
  revert w. induction documents as [| doc documents IH]; intros w.
  - exists w. cbn. auto with arith.
  - destruct (IH (set_urandom_pos S w)) as (w' & Heq & Hpos & Hc & Hq).
    exists w'. cbn [for_each length seq map]. unfold bind at 1.
    replace (mint doc w)
      with (Return (UUID_str (uuid_of_draw (urandom_pos w))), set_urandom_pos S w)
      by reflexivity.
    unfold bind at 1. rewrite Heq. cbn in Hpos. repeat split; auto. lia.
Qed.

(** What a returning [add_documents] has done for a list that is not empty. *)
Lemma add_documents_returns
    (self : VectorStoreService) (documents : list Document) (w w' : World)
    (ids : list string) :
  documents <> [] ->
  add_documents self documents w = (Return ids, w') ->
  ids = map (fun i => UUID_str (uuid_of_draw i)) (seq (urandom_pos w) (length documents))
  /\ urandom_pos w' = (urandom_pos w + length documents)%nat
  /\ calls w' =
     calls w ++ [{| call := Store_add_documents documents ids; outcome := Done |}].
Proof.
  intros Hne. unfold add_documents.
  rewrite bool_decide_eq_false_2 by (destruct documents; [congruence | discriminate]).
  unfold vector_store_add_documents. run.
  pose proof (mint_ids_position documents
                (set_log_records
                   (fun l => l ++ [{| levelname := INFO;
                                      msg := "Adding %d documents to the vector store.";
                                      args := [VInt (Z.of_nat (length documents))] |}]) w))
    as (w1 & Hmint & Hpos & Hc & Hq).
  run. rewrite Hmint. run.
  destruct (QdrantVectorStore_add_documents _ _ _ _) as [failure | srv']; run;
    [discriminate|].
  intros [= <- <-]. run. rewrite Hpos, Hc. auto.
Qed.

(** X13: identifiers are never reused and nothing is deduplicated: when the
    same documents are added twice, the store is called twice with them, and
    no identifier of the second call is one of the first, the UUIDs drawn
    over both calls being fresh. *)
Theorem adding_again_mints_new_ids
    (self : VectorStoreService) (documents : list Document) (w w1 w2 : World)
    (ids1 ids2 : list string) :
  documents <> [] ->
  add_documents self documents w = (Return ids1, w1) ->
  add_documents self documents w1 = (Return ids2, w2) ->
  NoDup (map uuid_of_draw (seq (urandom_pos w) (length documents + length documents))) ->
  (forall id, id ∈ ids1 -> id ∉ ids2)
  /\ calls w2 =
     calls w ++ [{| call := Store_add_documents documents ids1; outcome := Done |};
                 {| call := Store_add_documents documents ids2; outcome := Done |}].
Proof.
  intros Hne Hrun1 Hrun2 Hfresh.
  destruct (add_documents_returns _ _ _ _ _ Hne Hrun1) as (Hids1 & Hpos1 & Hc1).
  destruct (add_documents_returns _ _ _ _ _ Hne Hrun2) as (Hids2 & Hpos2 & Hc2).
  split.
  - assert (Hall : NoDup (ids1 ++ ids2)).
    { rewrite Hids1, Hids2, Hpos1, <- map_app, <- seq_app.
      rewrite <- (map_map uuid_of_draw UUID_str).
      apply (NoDup_fmap_2_strong UUID_str); [| exact Hfresh].
      intros a b Ha Hb.
      apply list_elem_of_fmap in Ha as (i & -> & _).
      apply list_elem_of_fmap in Hb as (j & -> & _).
      apply UUID_str_inj; apply uuid_of_draw_range. }
    apply NoDup_app in Hall as (_ & Hdisjoint & _). exact Hdisjoint.
  - rewrite Hc2, Hc1, <- app_assoc. reflexivity.
Qed.

Lemma UUID_str_format (int : Z) :
  String.length (UUID_str int) = 36%nat
  /\ String.get 8 (UUID_str int) = Some "-"%char
  /\ String.get 13 (UUID_str int) = Some "-"%char
  /\ String.get 18 (UUID_str int) = Some "-"%char
  /\ String.get 23 (UUID_str int) = Some "-"%char.
Proof.
  unfold UUID_str.
  pose proof (length_hex_fixed 32 int) as Hlen.
  remember (hex_fixed 32 int) as x eqn:Hx. clear Hx.
  do 32 (destruct x as [| ? x]; [discriminate Hlen|]).
  destruct x; [| discriminate Hlen].
  cbn. repeat split.
Qed.

(** X14: every identifier [add_documents] returns is written in the
    canonical form of a UUID: 36 characters, with dashes after the 8th, 12th,
    16th and 20th hexadecimal digit. *)
Theorem returned_ids_are_canonical
    (self : VectorStoreService) (documents : list Document) (w w' : World)
    (ids : list string) :
  add_documents self documents w = (Return ids, w') ->
  Forall (fun id =>
            String.length id = 36%nat
            /\ String.get 8 id = Some "-"%char
            /\ String.get 13 id = Some "-"%char
            /\ String.get 18 id = Some "-"%char
            /\ String.get 23 id = Some "-"%char) ids.
Proof.
  intros Hrun. destruct documents as [| doc documents].
  - cbn in Hrun. injection Hrun as <- _. constructor.
  - assert (Hne : doc :: documents <> []) by discriminate.
    destruct (add_documents_returns _ _ _ _ _ Hne Hrun) as (-> & _).
    apply Forall_forall. intros id Hid.
    apply list_elem_of_fmap in Hid as (i & -> & _). apply UUID_str_format.
Qed.

End Insertions.

(** ** Loading and chunking *)

Section Loading_and_chunking.
Context `{External}.
Import Document_processor.

Lemma loader_for_supported (extension : string) :
  extension ∈ SUPPORTED_EXTENSIONS ->
  (extension = ".pdf" /\ loader_for extension = PyPDFLoader_load)
  \/ (extension = ".txt" /\ loader_for extension = TextLoader_load)
  \/ (extension = ".csv" /\ loader_for extension = CSVLoader_load).
Proof.
  intros Hin. destruct (supported_cases _ Hin) as [-> | [-> | ->]]; auto.
Qed.

(** On a supported extension [load_file] runs the loader of that extension
    on the path in normal form, and changes nothing but the log. *)
Lemma load_file_dispatch (self : DocumentProcessor) (file_path : string) (w : World) :
  extension_of file_path ∈ SUPPORTED_EXTENSIONS ->
  fst (load_file self file_path w) =
    match loader_for (extension_of file_path) (fs w) (path_for_loader file_path) with
    | inl failure => Raise (LibraryError failure)
    | inr documents => Return documents
    end
  /\ fs (snd (load_file self file_path w)) = fs w
  /\ heap (snd (load_file self file_path w)) = heap w
  /\ qdrant (snd (load_file self file_path w)) = qdrant w
  /\ calls (snd (load_file self file_path w)) = calls w.
Proof.
  intros Hin. unfold load_file, path_for_loader. fold (extension_of file_path).
  rewrite bool_decide_eq_true_2 by exact Hin. cbn [negb].
  destruct (loader_for_supported _ Hin) as [[-> ->] | [[-> ->] | [-> ->]]];
    unfold loaders, getitem; cbn [String.eqb Ascii.eqb Bool.eqb];
    unfold load_pdf, load_txt, load_csv, loader_load; run.
  - destruct (PyPDFLoader_load _ _); auto.
  - destruct (TextLoader_load _ _); auto.
  - destruct (CSVLoader_load _ _); auto.
Qed.

(** X15: [load_file] only reads: whatever its argument and its outcome, the
    files, the streams, the server and the record of calls are as before,
    and the log has only grown.  On a supported extension its outcome is
    that of the loader of that extension, run on the path in normal form. *)
Theorem load_file_only_reads (self : DocumentProcessor) (file_path : string) (w : World) :
  fs (snd (load_file self file_path w)) = fs w
  /\ heap (snd (load_file self file_path w)) = heap w
  /\ qdrant (snd (load_file self file_path w)) = qdrant w
  /\ calls (snd (load_file self file_path w)) = calls w
  /\ (exists records,
        log_records (snd (load_file self file_path w)) = log_records w ++ records)
  /\ (extension_of file_path ∈ SUPPORTED_EXTENSIONS ->
      fst (load_file self file_path w) =
        match loader_for (extension_of file_path) (fs w) (path_for_loader file_path) with
        | inl failure => Raise (LibraryError failure)
        | inr documents => Return documents
        end).
Proof.
  destruct (decide (extension_of file_path ∈ SUPPORTED_EXTENSIONS)) as [Hin | Hnot].
  - destruct (load_file_dispatch self file_path w Hin) as (Hres & Hfs & Hheap & Hq & Hc).
    repeat split; try assumption; [| intros _; exact Hres].
    unfold load_file. fold (extension_of file_path).
    rewrite bool_decide_eq_true_2 by exact Hin. cbn [negb].
    destruct (loader_for_supported _ Hin) as [[-> _] | [[-> _] | [-> _]]];
      unfold loaders, getitem; cbn [String.eqb Ascii.eqb Bool.eqb];
      unfold load_pdf, load_txt, load_csv, loader_load; run.
    + destruct (PyPDFLoader_load _ _); run; rewrite <- ?app_assoc; eauto.
    + destruct (TextLoader_load _ _); run; rewrite <- ?app_assoc; eauto.
    + destruct (CSVLoader_load _ _); run; rewrite <- ?app_assoc; eauto.
  - rewrite (load_file_unsupported self file_path w Hnot). cbn [fst snd].
    repeat split; [exists []; symmetry; apply app_nil_r | contradiction].
Qed.

(** *** The name of the temporary file *)















Lemma mkstemp_inner_name (attempts : nat) (dir pre suf : string) (w w1 : World)
    (temp : string) :
  _mkstemp_inner attempts dir pre suf w = (Return temp, w1) ->
  exists k, temp = dir +:+ "/" +:+ pre +:+ tmp_candidate k +:+ suf.
Proof.
  revert w. induction attempts as [| attempts IH]; intros w; cbn [_mkstemp_inner]; run.
  - discriminate.
  - destruct (fs w !! (dir +:+ "/" +:+ pre +:+ tmp_candidate (tmp_seq w) +:+ suf)).
    + apply IH.
    + run. intros [= <- _]. eauto.
Qed.


Context `{Splitting}.

(** X18: every chunk made from an upload carries the caller's filename as
    its source, when the splitter gives each chunk the source of a document
    it was given. *)
Theorem process_upload_chunks_carry_the_filename
    (self : DocumentProcessor) (file : nat) (filename : string) (w w' : World)
    (chunks : list Document) :
  keeps_sources ->
  process_upload self file filename w = (Return chunks, w') ->
  Forall (fun chunk => metadata chunk !! "source" = Some (VStr filename)) chunks.
Proof.
  intros Hkeeps. unfold process_upload. unfold bind at 1.
  destruct (load_from_upload self file filename w) as [[documents | e] w1] eqn:Hload;
    [| discriminate].
  unfold split_documents. run.
  destruct (TextSplitter_split_documents (text_splitter self) documents)
    as [failure | split] eqn:Hsplit; run; [discriminate|].
  intros [= <- _].
  destruct (load_from_upload_returns _ _ _ _ _ _ Hload) as (_ & _ & _ & loaded & _ & _ & ->).
  apply Forall_forall. intros chunk Hchunk.
  destruct (Hkeeps _ _ _ Hsplit chunk Hchunk) as (doc & Hdoc & ->).
  apply list_elem_of_fmap in Hdoc as (doc0 & -> & _).
  apply set_source_source.
Qed.

(** X19: on a supported extension [process_file] gives the chunks the
    splitter makes of the documents the loader of that extension gives; a
    failure of the loader or of the splitter is raised; the files and the
    streams are as before. *)
Theorem process_file_chunks_the_loaded_documents
    (self : DocumentProcessor) (file_path : string) (w : World) :
  extension_of file_path ∈ SUPPORTED_EXTENSIONS ->
  fst (process_file self (inl file_path) w) =
    match loader_for (extension_of file_path) (fs w) (path_for_loader file_path) with
    | inl failure => Raise (LibraryError failure)
    | inr documents =>
        match TextSplitter_split_documents (text_splitter self) documents with
        | inl failure => Raise (LibraryError failure)
        | inr chunks => Return chunks
        end
    end
  /\ fs (snd (process_file self (inl file_path) w)) = fs w
  /\ heap (snd (process_file self (inl file_path) w)) = heap w.
Proof.
  intros Hin.
  destruct (load_file_dispatch self file_path w Hin) as (Hres & Hfs & Hheap & _).
  destruct (load_file self file_path w) as [[documents | e] w1] eqn:Hload;
    cbn [fst snd] in Hres, Hfs, Hheap;
    unfold process_file, split_documents; run; rewrite Hload; run.
  - destruct (loader_for _ _ _) as [failure | loaded]; [discriminate|].
    injection Hres as ->.
    destruct (TextSplitter_split_documents (text_splitter self) loaded); run; auto.
  - destruct (loader_for _ _ _) as [failure | loaded]; [| discriminate].
    injection Hres as ->. auto.
Qed.

End Loading_and_chunking.

(** ** The pipeline on an extension that is not supported *)

Section Unsupported_uploads.
Context `{External} `{Document_processor.Splitting}.
Import Document_processor.

(** X20: on an extension that is not supported, [process_upload] and
    [process_file] raise the [ValueError] of the extension check and nothing
    else has happened: the stream is not read, no temporary file is made,
    the splitter is not consulted and nothing is logged. *)
Theorem unsupported_extension_stops_the_pipeline
    (self : DocumentProcessor) (file : nat) (filename : string) (w : World) :
  extension_of filename ∉ SUPPORTED_EXTENSIONS ->
  process_upload self file filename w = (Raise (unsupported (extension_of filename)), w)
  /\ process_file self (inl filename) w = (Raise (unsupported (extension_of filename)), w).
Proof.
  intros Hnot. unfold process_upload, process_file. run.
  rewrite (load_from_upload_unsupported self file filename w Hnot).
  rewrite (load_file_unsupported self filename w Hnot).
  auto.
Qed.

End Unsupported_uploads.

(** ** The requests of the embedding service *)

Section Embedding_requests.
Context `{External}.
Import Embeddings.

(** X21: [embed_query] and [embed_documents] never return, and yet each
    makes its request to the embedding client, once, before it fails; only
    the first of the two debug records is logged. *)
Theorem embed_methods_call_the_client_once (self : EmbeddingService) :
  (forall text w,
      (forall vector, fst (embed_query self text w) <> Return vector)
      /\ (exists o,
            calls (snd (embed_query self text w)) =
              calls w ++ [{| call := Embed_query text; outcome := o |}])
      /\ log_records (snd (embed_query self text w)) =
         log_records w ++
           [{| levelname := DEBUG;
               msg := "Generating embeddings for text of length %d";
               args := [VInt (Z.of_nat (String.length text))] |}])
  /\ (forall texts w,
      (forall vectors, fst (embed_documents self texts w) <> Return vectors)
      /\ (exists o,
            calls (snd (embed_documents self texts w)) =
              calls w ++ [{| call := Embed_documents texts; outcome := o |}])
      /\ log_records (snd (embed_documents self texts w)) =
         log_records w ++
           [{| levelname := DEBUG;
               msg := "Generating embeddings for %d documents";
               args := [VInt (Z.of_nat (length texts))] |}]).
Proof.
  split; intros x w.
  - unfold embed_query, client_embed_query.
    rewrite embedding_is_unbound. run.
    destruct (OpenAIEmbeddings_embed_query x); run; repeat split; eauto; discriminate.
  - unfold embed_documents, client_embed_documents.
    rewrite embeddings_is_unbound. run.
    destruct (OpenAIEmbeddings_embed_documents x); run; repeat split; eauto; discriminate.
Qed.

End Embedding_requests.

(** ** Further runs in the demo environment *)

Section Further_runs.
#[local] Existing Instance Demo.external.
#[local] Existing Instance Demo.splitting.

(** A search for a negative number of neighbours. *)
Lemma given_k_is_passed_on_witness :
  calls (snd (Vector_store.search (Demo.service "docs") "what is RAG?" (Some (-3)%Z)
                Demo.world)) =
    [{| call := Store_similarity_search "what is RAG?" (-3); outcome := Done |}]
  /\ exists retriever,
      fst (Vector_store.get_retriever (Demo.service "docs") (Some (-3)%Z) Demo.world) =
        Return retriever
      /\ Vector_store.search_kwargs retriever !! "k" = Some (VInt (-3)).
Proof.
  assert (Hk : (-3)%Z <> 0%Z) by lia.
  destruct (given_k_is_passed_on (Demo.service "docs") "what is RAG?" (-3)%Z Demo.world Hk)
    as ((o & Hcalls) & _ & _ & _ & (retriever & Hres & Hkw & _)).
  split.
  - rewrite Hcalls. vm_compute in Hcalls. injection Hcalls as <-. reflexivity.
  - exists retriever. split; [exact Hres | exact Hkw].
Defined.

(** A server that has the collection [docs], with twelve points. *)
Lemma deleted_collection_is_reported_missing_witness :
  let w := Demo.world_with_collection "docs" Demo.small_collection in
  collections (qdrant w) !! "docs" = Some Demo.small_collection
  /\ exists payload,
      fst (Vector_store.get_collection_info (Demo.service "docs")
             (snd (Vector_store.delete_collection (Demo.service "docs") w))) =
        Return payload
      /\ payload !! "points_count" = Some (VInt 0).
Proof.
  intros w.
  assert (Hfaults : faults (qdrant w) = []) by reflexivity.
  destruct (deleted_collection_is_reported_missing (Demo.service "docs") w Hfaults)
    as (payload & Hres & _ & Hcount).
  split; [vm_compute; reflexivity|].
  exists payload. split; [exact Hres | exact Hcount].
Defined.

Lemma construction_after_delete_creates_again_witness :
  let w := Demo.world_with_collection "docs" Demo.small_collection in
  collections
    (qdrant (snd (Vector_store.__init__ (Some "docs")
                    (snd (Vector_store.delete_collection (Demo.service "docs") w)))))
    !! "docs" = Some fresh_collection.
Proof.
  intros w.
  assert (Hfaults : faults (qdrant w) = []) by reflexivity.
  assert (Hname : Vector_store.collection_name (Demo.service "docs") =
                  py_or truthy_str (Some "docs") (Config.qdrant_collection_name settings))
    by reflexivity.
  exact (proj2 (construction_after_delete_creates_again
                  (Demo.service "docs") (Some "docs") w Hfaults Hname)).
Defined.

(** The collection [docs] of 768-dimensional vectors under the dot product
    is kept as it is. *)
Lemma construction_keeps_an_existing_collection_witness :
  let w := Demo.world_with_collection "docs" Demo.small_collection in
  collections (qdrant (snd (Vector_store.__init__ (Some "docs") w))) !! "docs" =
    Some Demo.small_collection.
Proof.
  intros w.
  assert (Hfaults : faults (qdrant w) = []) by reflexivity.
  assert (Hthere : collections (qdrant w) !! "docs" = Some Demo.small_collection)
    by (vm_compute; reflexivity).
  destruct (construction_keeps_an_existing_collection (Some "docs") w Demo.small_collection
              Hfaults Hthere) as (Hq & _).
  rewrite Hq. exact Hthere.
Defined.

(** The probe of the existing collection [docs] is answered with 503. *)
Lemma refused_probe_of_an_existing_collection_witness :
  let w := Demo.world_with_collection_and_faults "docs" Demo.small_collection
             [Some (HttpError 503 "Service Unavailable" "busy")] in
  fst (Vector_store.__init__ (Some "docs") w) =
    Raise (UnexpectedResponse 409 "Conflict"
             "Wrong input: Collection `docs` already exists!")
  /\ collections (qdrant (snd (Vector_store.__init__ (Some "docs") w))) !! "docs" =
     Some Demo.small_collection.
Proof.
  intros w.
  assert (Hfaults : faults (qdrant w) = [Some (HttpError 503 "Service Unavailable" "busy")])
    by reflexivity.
  assert (Hthere : collections (qdrant w) !! "docs" = Some Demo.small_collection)
    by (vm_compute; reflexivity).
  destruct (refused_probe_of_an_existing_collection (Some "docs") w Demo.small_collection
              503 "Service Unavailable" "busy" Hfaults Hthere) as (Hres & _ & Hq).
  split; [exact Hres|]. rewrite Hq. exact Hthere.
Defined.

(** The langchain store refuses the collection the constructor has just
    created. *)
Lemma failed_construction_leaves_the_collection_witness :
  fst (@Vector_store.__init__ Demo.external_with_refusing_store None Demo.world) =
    Raise (LibraryError "Existing Qdrant collection is misconfigured")
  /\ collections
       (qdrant (snd (@Vector_store.__init__ Demo.external_with_refusing_store None Demo.world)))
       !! "rag_qa_collection" = Some fresh_collection.
Proof.
  assert (Hfaults : faults (qdrant Demo.world) = []) by reflexivity.
  assert (Habsent : collections (qdrant Demo.world) !! "rag_qa_collection" = None)
    by (vm_compute; reflexivity).
  exact (@failed_construction_leaves_the_collection Demo.external_with_refusing_store
           None Demo.world "Existing Qdrant collection is misconfigured"
           Hfaults Habsent eq_refl).
Defined.

(** The two chunks, added twice. *)
Lemma adding_again_mints_new_ids_witness :
  let first := Vector_store.add_documents (Demo.service "docs") Demo.chunks Demo.world in
  let second := Vector_store.add_documents (Demo.service "docs") Demo.chunks (snd first) in
  exists ids1 ids2,
    fst first = Return ids1
    /\ fst second = Return ids2
    /\ length ids1 = 2%nat
    /\ forall id, id ∈ ids1 -> id ∉ ids2.
Proof.
  intros first second.
  assert (Hrun1 : exists ids1, first = (Return ids1, snd first)
                               /\ length ids1 = 2%nat).
  { eexists. vm_compute. split; reflexivity. }
  assert (Hrun2 : exists ids2, second = (Return ids2, snd second)).
  { eexists. vm_compute. reflexivity. }
  destruct Hrun1 as (ids1 & Hrun1 & Hlen). destruct Hrun2 as (ids2 & Hrun2).
  assert (Hne : Demo.chunks <> []) by discriminate.
  assert (Hfresh : NoDup (map Vector_store.uuid_of_draw
                            (seq (urandom_pos Demo.world)
                               (length Demo.chunks + length Demo.chunks))))
    by by_evaluation.
  destruct (adding_again_mints_new_ids (Demo.service "docs") Demo.chunks Demo.world
              (snd first) (snd second) ids1 ids2 Hne Hrun1 Hrun2 Hfresh) as (Hnew & _).
  exists ids1, ids2. rewrite Hrun1, Hrun2. auto.
Defined.

Lemma returned_ids_are_canonical_witness :
  exists ids,
    fst (Vector_store.add_documents (Demo.service "docs") Demo.chunks Demo.world) = Return ids
    /\ length ids = 2%nat
    /\ Forall (fun id => String.length id = 36%nat /\ String.get 8 id = Some "-"%char) ids.
Proof.
  assert (Hrun : exists ids,
             Vector_store.add_documents (Demo.service "docs") Demo.chunks Demo.world =
               (Return ids,
                snd (Vector_store.add_documents (Demo.service "docs") Demo.chunks Demo.world))
             /\ length ids = 2%nat).
  { eexists. vm_compute. split; reflexivity. }
  destruct Hrun as (ids & Hrun & Hlen).
  pose proof (returned_ids_are_canonical _ _ _ _ _ Hrun) as Hform.
  exists ids. rewrite Hrun. split; [reflexivity|]. split; [exact Hlen|].
  eapply Forall_impl; [exact Hform|]. cbn. intros id (Hl & Hd & _). auto.
Defined.



(** The splitter of the demo environment gives each chunk the metadata of
    its document, hence its source. *)
Lemma demo_splitting_keeps_sources : keeps_sources.
Proof.
  intros splitter documents chunks [= <-] chunk Hchunk.
  apply list_elem_of_In, in_flat_map in Hchunk as (doc & Hdoc & Hhalf).
  exists doc. split; [apply list_elem_of_In; exact Hdoc|].
  destruct Hhalf as [<- | [<- | []]]; reflexivity.
Qed.

(** The CSV upload of three data rows, cut in six chunks. *)
Lemma process_upload_chunks_carry_the_filename_witness :
  exists chunks,
    fst (Document_processor.process_upload Demo.processor 0 "report.csv"
           (Demo.world_with_stream (Demo.stream_of Demo.report_csv))) = Return chunks
    /\ length chunks = 6%nat
    /\ Forall (fun chunk => metadata chunk !! "source" = Some (VStr "report.csv")) chunks.
Proof.
  assert (Hrun : exists chunks,
             Document_processor.process_upload Demo.processor 0 "report.csv"
               (Demo.world_with_stream (Demo.stream_of Demo.report_csv)) =
               (Return chunks,
                snd (Document_processor.process_upload Demo.processor 0 "report.csv"
                       (Demo.world_with_stream (Demo.stream_of Demo.report_csv))))
             /\ length chunks = 6%nat).
  { eexists. vm_compute. split; reflexivity. }
  destruct Hrun as (chunks & Hrun & Hlen).
  exists chunks. rewrite Hrun. split; [reflexivity|]. split; [exact Hlen|].
  exact (process_upload_chunks_carry_the_filename _ _ _ _ _ _
           demo_splitting_keeps_sources Hrun).
Defined.

(** A text file on the disk, cut in two chunks. *)
Lemma process_file_chunks_the_loaded_documents_witness :
  let w := set_fs (insert "/data/notes.txt" (Demo.bytes_of "hello world")) Demo.world in
  (exists chunks,
      fst (Document_processor.process_file Demo.processor (inl "/data/notes.txt") w) =
        Return chunks
      /\ map page_content chunks = ["hello"; " world"])
  /\ fs (snd (Document_processor.process_file Demo.processor (inl "/data/notes.txt") w)) =
     fs w.
Proof.
  intros w.
  assert (Hin : extension_of "/data/notes.txt" ∈ Document_processor.SUPPORTED_EXTENSIONS)
    by by_evaluation.
  destruct (process_file_chunks_the_loaded_documents Demo.processor "/data/notes.txt" w Hin)
    as (Hres & Hfs & _).
  split; [| exact Hfs].
  eexists. split; [rewrite Hres; vm_compute; reflexivity|]. vm_compute. reflexivity.
Defined.

(** A slide deck is turned away before anything is done with it. *)
Lemma unsupported_extension_stops_the_pipeline_witness :
  let w := Demo.world_with_stream (Demo.stream_of "x") in
  Document_processor.process_upload Demo.processor 0 "slides.PPTX" w =
    (Raise (unsupported ".pptx"), w)
  /\ Document_processor.process_file Demo.processor (inl "slides.PPTX") w =
     (Raise (unsupported ".pptx"), w).
Proof.
  intros w.
  assert (Hnot : extension_of "slides.PPTX" ∉ Document_processor.SUPPORTED_EXTENSIONS)
    by by_evaluation.
  exact (unsupported_extension_stops_the_pipeline Demo.processor 0 "slides.PPTX" w Hnot).
Defined.

End Further_runs.
